(** * Workspace discovery of the nao backend: rules file, repositories, connections

    Shallow embedding of [getUserRules], [getRepositories] and
    [getConnections] (backend agent utilities, TypeScript) together with the
    parts of the Node.js platform they call: [path.join], [fs.existsSync],
    [fs.readdirSync], [fs.readFileSync] and [console.error].

    The three functions read [env.NAO_DEFAULT_PROJECT_PATH], probe the file
    system and return a value or [null].  They are modelled in a small monad
    that reads one file-system state, records every platform call in a trace
    and carries JavaScript exceptions explicitly, so that [try]/[catch] and
    statements such as "the file system is not touched" are expressible. *)

From Stdlib Require Import List String Ascii Bool Arith Lia.
Import ListNotations.
Open Scope string_scope.
Open Scope list_scope.

Set Implicit Arguments.

(* ================================================================= *)
(** ** JavaScript strings *)

Module JsString.

(** Truthiness of a string: every string but the empty one. *)
Definition truthy (s : string) : bool :=
  match s with
  | EmptyString => false
  | String _ _ => true
  end.

(** [s.startsWith(p)] *)
Definition startsWith (s p : string) : bool := String.prefix p s.

(** [s.slice(start)] for [0 <= start]: the characters from index [start]
    on, the empty string once [start] passes the end. *)
Fixpoint slice (start : nat) (s : string) : string :=
  match start, s with
  | O, _ => s
  | S _, EmptyString => EmptyString
  | S n, String _ rest => slice n rest
  end.

(** Last character test, used by [path.normalize]. *)
Fixpoint endsWith (c : ascii) (s : string) : bool :=
  match s with
  | EmptyString => false
  | String d EmptyString => Ascii.eqb d c
  | String _ rest => endsWith c rest
  end.

End JsString.

(* ================================================================= *)
(** ** Node's [path] module, POSIX flavour

    [path.join] is platform code, not code of the repository.  The model
    follows the documented algorithm of [path.posix]: the non-empty
    arguments are glued with ["/"] and the result is normalised (empty and
    ["."] segments dropped, [".."] resolved against the segment before it,
    a leading slash kept). *)

Module Path.

Definition sep : ascii := "/"%char.

(** The pieces of a string between separators; never the empty list. *)
Fixpoint segments (s : string) : list string :=
  match s with
  | EmptyString => [EmptyString]
  | String c rest =>
      if Ascii.eqb c sep then EmptyString :: segments rest
      else match segments rest with
           | seg :: more => String c seg :: more
           | [] => [String c EmptyString]
           end
  end.

(** One pass of [normalizeString]: [stack] holds the segments kept so
    far, innermost first. *)
Fixpoint resolve (allowAboveRoot : bool) (stack segs : list string)
  : list string :=
  match segs with
  | [] => stack
  | seg :: rest =>
      if (seg =? "") || (seg =? ".") then resolve allowAboveRoot stack rest
      else if seg =? ".." then
        match stack with
        | top :: below =>
            if top =? ".." then
              resolve allowAboveRoot
                (if allowAboveRoot then ".." :: stack else stack) rest
            else resolve allowAboveRoot below rest
        | [] =>
            resolve allowAboveRoot
              (if allowAboveRoot then [".."] else []) rest
        end
      else resolve allowAboveRoot (seg :: stack) rest
  end.

(** [path.charCodeAt(0) === CHAR_FORWARD_SLASH] *)
Definition isAbsolute (p : string) : bool :=
  match p with
  | String c _ => Ascii.eqb c sep
  | EmptyString => false
  end.

Definition render (absolute trailing : bool) (stack : list string) : string :=
  let body := String.concat "/" (rev stack) in
  match body with
  | EmptyString =>
      if absolute then "/" else if trailing then "./" else "."
  | _ =>
      let body := if trailing then (body ++ "/")%string else body in
      if absolute then ("/" ++ body)%string else body
  end.

Definition normalize (p : string) : string :=
  match p with
  | EmptyString => "."
  | _ =>
      let absolute := isAbsolute p in
      render absolute (JsString.endsWith sep p)
        (resolve (negb absolute) [] (segments p))
  end.

Definition join (parts : list string) : string :=
  match filter JsString.truthy parts with
  | [] => "."
  | kept => normalize (String.concat "/" kept)
  end.

(** ** Shapes of segments and of resolved stacks *)

(** A string without separator: it is its own single segment. *)
Definition atom (s : string) : Prop := segments s = [s].

(** A proper name: neither empty nor one of the dot segments. *)
Definition isName (s : string) : bool :=
  negb (s =? "") && negb (s =? ".") && negb (s =? "..").

(** The stacks [resolve] builds: names on top of a run of [".."], the
    run being there only when the path may climb above its start. *)
Fixpoint resolved (allowAboveRoot : bool) (stack : list string) : bool :=
  match stack with
  | [] => true
  | top :: below =>
      if top =? ".." then allowAboveRoot && forallb (String.eqb "..") below
      else isName top && resolved allowAboveRoot below
  end.

(** The stack [normalize] renders for a path. *)
Definition stackOf (p : string) : list string :=
  resolve (negb (isAbsolute p)) [] (segments p).

End Path.

(* ================================================================= *)
(** ** The platform: file system, console, exceptions *)

(** A [fs.Dirent] as returned by [readdirSync(p, { withFileTypes: true })]. *)
Module Dirent.
Record t : Type := make { name : string; isDirectory : bool }.
End Dirent.

(** The value carried by a thrown exception (an [Error]'s message). *)
Definition Exception : Type := string.

(** One state of the file system, as seen through the three [fs] calls the
    code makes.  [existsSync] never throws (Node answers [false] when the
    test itself fails); [readdirSync] and [readFileSync] either return
    ([inr]) or throw ([inl]). *)
Record FileSystem : Type := {
  fs_existsSync : string -> bool;
  fs_readdirSync : string -> Exception + list Dirent.t;
  fs_readFileSync : string -> Exception + string
}.

(** The platform calls a run performs, in order. *)
Inductive Call : Type :=
| ExistsSync (path : string)
| ReaddirSync (path : string)
| ReadFileSync (path : string)
| ConsoleError (message : string) (error : Exception).

(** How a computation ends. *)
Inductive Outcome (A : Type) : Type :=
| Returned (value : A)
| Thrown (error : Exception).
Arguments Thrown {A} error.

(** Computations: read the file system, emit calls, return or throw. *)
Definition Js (A : Type) : Type := FileSystem -> Outcome A * list Call.

Definition ret {A} (a : A) : Js A := fun _ => (Returned a, []).

Definition bind {A B} (m : Js A) (k : A -> Js B) : Js B :=
  fun fs =>
    match m fs with
    | (Returned a, calls) =>
        let (out, calls') := k a fs in (out, calls ++ calls')
    | (Thrown e, calls) => (Thrown e, calls)
    end.

(** [try { body } catch (error) { handler }] *)
Definition tryCatch {A} (body : Js A) (handler : Exception -> Js A) : Js A :=
  fun fs =>
    match body fs with
    | (Returned a, calls) => (Returned a, calls)
    | (Thrown e, calls) =>
        let (out, calls') := handler e fs in (out, calls ++ calls')
    end.

Declare Scope js_scope.
Delimit Scope js_scope with js.
Notation "x <- m ;; k" := (bind m (fun x => k))
  (at level 61, m at next level, right associativity) : js_scope.
Notation "m ;;; k" := (bind m (fun _ => k))
  (at level 61, right associativity) : js_scope.
Open Scope js_scope.

Definition existsSync (path : string) : Js bool :=
  fun fs => (Returned (fs_existsSync fs path), [ExistsSync path]).

Definition ofResult {A} (r : Exception + A) : Outcome A :=
  match r with
  | inl e => Thrown e
  | inr a => Returned a
  end.

Definition readdirSync (path : string) : Js (list Dirent.t) :=
  fun fs => (ofResult (fs_readdirSync fs path), [ReaddirSync path]).

Definition readFileSync (path : string) : Js string :=
  fun fs => (ofResult (fs_readFileSync fs path), [ReadFileSync path]).

Definition console_error (message : string) (error : Exception) : Js unit :=
  fun _ => (Returned tt, [ConsoleError message error]).

(** [for (const x of xs) { body }] over an accumulator that the body
    updates ([push]); [continue] is the body returning it unchanged. *)
Fixpoint forOf {A S} (xs : list A) (body : A -> S -> Js S) (acc : S) : Js S :=
  match xs with
  | [] => ret acc
  | x :: rest => acc' <- body x acc ;; forOf rest body acc'
  end.

(** [xs.length > 0 ? xs : null] *)
Definition nonEmptyOrNull {A} (xs : list A) : option (list A) :=
  match xs with
  | [] => None
  | _ => Some xs
  end.

(* ================================================================= *)
(** ** The process environment

    [env] is the backend's environment module (['../env']); only
    [NAO_DEFAULT_PROJECT_PATH] is read from it, a string that may be
    undefined. *)

Record Env : Type := {
  NAO_DEFAULT_PROJECT_PATH : option string
}.

(** [!projectFolder]: undefined and the empty string are both falsy. *)
Definition falsy (v : option string) : bool :=
  match v with
  | None => true
  | Some s => negb (JsString.truthy s)
  end.

(** The string behind a value already known to be truthy. *)
Definition asString (v : option string) : string :=
  match v with
  | None => ""
  | Some s => s
  end.

(* ================================================================= *)
(** ** getUserRules *)

Definition getUserRules (env : Env) : Js (option string) :=
  let projectFolder := NAO_DEFAULT_PROJECT_PATH env in
  if falsy projectFolder then ret None
  else
    let rulesPath := Path.join [asString projectFolder; "RULES.md"] in
    present <- existsSync rulesPath ;;
    if negb present then ret None
    else
      tryCatch
        (rulesContent <- readFileSync rulesPath ;;
         ret (Some rulesContent))
        (fun error =>
           console_error "Error reading RULES.md:" error ;;;
           ret None).

(* ================================================================= *)
(** ** getRepositories *)

(** [dbtProjectPath?] and [indexed?] are optional properties: [None] is the
    property holding no value. *)
Record Repository : Type := {
  name : string;
  hasDbtProject : bool;
  dbtProjectPath : option string;
  indexed : option bool
}.

(** The body of the loop over [entries]: one directory entry. *)
Definition scanRepository (reposPath : string) (entry : Dirent.t)
  (repositories : list Repository) : Js (list Repository) :=
  if negb (Dirent.isDirectory entry) then ret repositories
  else
    let rootDbtProject :=
      Path.join [reposPath; Dirent.name entry; "dbt_project.yml"] in
    let subDbtProject :=
      Path.join [reposPath; Dirent.name entry; "dbt"; "dbt_project.yml"] in
    found <-
      (atRoot <- existsSync rootDbtProject ;;
       if atRoot then ret (true, Some ("repos/" ++ Dirent.name entry)%string)
       else
         atSub <- existsSync subDbtProject ;;
         if atSub
         then ret (true, Some ("repos/" ++ Dirent.name entry ++ "/dbt")%string)
         else ret (false, None)) ;;
    let '(hasDbtProject, dbtProjectPath) := found in
    indexed <-
      (if hasDbtProject then
         let indexPath :=
           Path.join [reposPath; ".."; "dbt-index"; Dirent.name entry;
                      "manifest.md"] in
         existsSync indexPath
       else ret false) ;;
    ret (repositories ++
         [ {| name := Dirent.name entry;
              hasDbtProject := hasDbtProject;
              dbtProjectPath := dbtProjectPath;
              indexed := Some indexed |} ]).

Definition getRepositories (env : Env) : Js (option (list Repository)) :=
  let projectFolder := NAO_DEFAULT_PROJECT_PATH env in
  if falsy projectFolder then ret None
  else
    let reposPath := Path.join [asString projectFolder; "repos"] in
    present <- existsSync reposPath ;;
    if negb present then ret None
    else
      tryCatch
        (entries <- readdirSync reposPath ;;
         repositories <- forOf entries (scanRepository reposPath) [] ;;
         ret (nonEmptyOrNull repositories))
        (fun error =>
           console_error "Error reading repos folder:" error ;;;
           ret None).

(* ================================================================= *)
(** ** getConnections *)

Record Connection : Type := {
  type : string;
  database : string
}.

(** The body of the inner loop: one entry of a [type=...] directory. *)
Definition scanDatabase (type : string) (dbEntry : Dirent.t)
  (connections : list Connection) : Js (list Connection) :=
  if Dirent.isDirectory dbEntry
     && JsString.startsWith (Dirent.name dbEntry) "database="
  then
    let database :=
      JsString.slice (String.length "database=") (Dirent.name dbEntry) in
    if JsString.truthy database
    then ret (connections ++ [ {| type := type; database := database |} ])
    else ret connections
  else ret connections.

(** The body of the outer loop: one entry of [databases/]. *)
Definition scanType (databasesPath : string) (entry : Dirent.t)
  (connections : list Connection) : Js (list Connection) :=
  if Dirent.isDirectory entry
     && JsString.startsWith (Dirent.name entry) "type="
  then
    let type := JsString.slice (String.length "type=") (Dirent.name entry) in
    if JsString.truthy type then
      let typePath := Path.join [databasesPath; Dirent.name entry] in
      dbEntries <- readdirSync typePath ;;
      forOf dbEntries (scanDatabase type) connections
    else ret connections
  else ret connections.

Definition getConnections (env : Env) : Js (option (list Connection)) :=
  let projectFolder := NAO_DEFAULT_PROJECT_PATH env in
  if falsy projectFolder then ret None
  else
    let databasesPath := Path.join [asString projectFolder; "databases"] in
    present <- existsSync databasesPath ;;
    if negb present then ret None
    else
      tryCatch
        (entries <- readdirSync databasesPath ;;
         connections <- forOf entries (scanType databasesPath) [] ;;
         ret (nonEmptyOrNull connections))
        (fun error =>
           console_error "Error reading databases folder:" error ;;;
           ret None).

(** Running a computation on a file system. *)
Definition result {A} (m : Js A) (fs : FileSystem) : Outcome A := fst (m fs).
Definition calls {A} (m : Js A) (fs : FileSystem) : list Call := snd (m fs).

(* ================================================================= *)
(** ** What a scan is expected to find

    Pure descriptions of the scanners' results, against which the
    effectful code above is compared. *)

(** The paths [getRepositories] probes for the directory [D] of [repos/]. *)
Definition rootManifest (reposPath D : string) : string :=
  Path.join [reposPath; D; "dbt_project.yml"].
Definition nestedManifest (reposPath D : string) : string :=
  Path.join [reposPath; D; "dbt"; "dbt_project.yml"].
Definition indexArtifact (projectFolder D : string) : string :=
  Path.join [projectFolder; "dbt-index"; D; "manifest.md"].

(** Is [D] a project: is there a manifest at one of the two places? *)
Definition isProject (fs : FileSystem) (reposPath D : string) : bool :=
  fs_existsSync fs (rootManifest reposPath D)
  || fs_existsSync fs (nestedManifest reposPath D).

(** The record [scanRepository] pushes for a directory entry. *)
Definition repositoryOf (fs : FileSystem) (reposPath : string)
  (entry : Dirent.t) : Repository :=
  let D := Dirent.name entry in
  let indexPath := Path.join [reposPath; ".."; "dbt-index"; D; "manifest.md"] in
  if fs_existsSync fs (rootManifest reposPath D) then
    {| name := D; hasDbtProject := true;
       dbtProjectPath := Some ("repos/" ++ D)%string;
       indexed := Some (fs_existsSync fs indexPath) |}
  else if fs_existsSync fs (nestedManifest reposPath D) then
    {| name := D; hasDbtProject := true;
       dbtProjectPath := Some ("repos/" ++ D ++ "/dbt")%string;
       indexed := Some (fs_existsSync fs indexPath) |}
  else
    {| name := D; hasDbtProject := false;
       dbtProjectPath := None;
       indexed := Some false |}.

(** The existence tests made for a directory entry: the manifest at the
    root, the nested one only if the first is missing, the index artifact
    only for a project. *)
Definition probesOf (fs : FileSystem) (reposPath : string)
  (entry : Dirent.t) : list Call :=
  let D := Dirent.name entry in
  ExistsSync (rootManifest reposPath D)
  :: (if fs_existsSync fs (rootManifest reposPath D) then []
      else [ExistsSync (nestedManifest reposPath D)])
  ++ (if isProject fs reposPath D
      then [ExistsSync (Path.join [reposPath; ".."; "dbt-index"; D;
                                   "manifest.md"])]
      else []).

(** The same tests as the specification words them: the index artifact is
    [<root>/dbt-index/<D>/manifest.md], looked for only when [D] is a
    project. *)
Definition expectedProbes (fs : FileSystem) (projectFolder : string)
  (entry : Dirent.t) : list Call :=
  let reposPath := Path.join [projectFolder; "repos"] in
  let D := Dirent.name entry in
  ExistsSync (rootManifest reposPath D)
  :: (if fs_existsSync fs (rootManifest reposPath D) then []
      else [ExistsSync (nestedManifest reposPath D)])
  ++ (if isProject fs reposPath D
      then [ExistsSync (indexArtifact projectFolder D)]
      else []).

Definition isReadFileSync (c : Call) : bool :=
  match c with
  | ReadFileSync _ => true
  | _ => false
  end.

(** [key=value] directory names: the value of a directory entry named
    [key ++ value] with a non-empty [value]; nothing for any other entry. *)
Fixpoint stripPrefix (key s : string) : option string :=
  match key, s with
  | EmptyString, _ => Some s
  | String k key', String c s' =>
      if Ascii.eqb k c then stripPrefix key' s' else None
  | String _ _, EmptyString => None
  end.

Definition keyValue (key : string) (entry : Dirent.t) : option string :=
  if Dirent.isDirectory entry then
    match stripPrefix key (Dirent.name entry) with
    | Some EmptyString => None
    | other => other
    end
  else None.

(** The entries of a directory, none if it cannot be enumerated. *)
Definition listing (fs : FileSystem) (path : string) : list Dirent.t :=
  match fs_readdirSync fs path with
  | inr entries => entries
  | inl _ => []
  end.

Definition readable (fs : FileSystem) (path : string) : bool :=
  match fs_readdirSync fs path with
  | inr _ => true
  | inl _ => false
  end.

(** The connection declared by one entry of a [type=T] directory. *)
Definition connectionOf (T : string) (dbEntry : Dirent.t) : list Connection :=
  match keyValue "database=" dbEntry with
  | Some D => [ {| type := T; database := D |} ]
  | None => []
  end.

(** The connections declared below one entry of [databases/]. *)
Definition connectionsUnder (fs : FileSystem) (databasesPath : string)
  (entry : Dirent.t) : list Connection :=
  match keyValue "type=" entry with
  | Some T =>
      flat_map (connectionOf T)
        (listing fs (Path.join [databasesPath; Dirent.name entry]))
  | None => []
  end.

(** All declared connections, in nested enumeration order. *)
Definition declaredConnections (fs : FileSystem) (databasesPath : string)
  (entries : list Dirent.t) : list Connection :=
  flat_map (connectionsUnder fs databasesPath) entries.

(** The [type=T] directories among the entries of [databases/]. *)
Definition typeDirectories (entries : list Dirent.t) : list Dirent.t :=
  filter (fun e => match keyValue "type=" e with Some _ => true | None => false end)
         entries.

(** The enumerations of the [type=T] directories, in order. *)
Definition typeListings (databasesPath : string) (entries : list Dirent.t)
  : list Call :=
  map (fun e => ReaddirSync (Path.join [databasesPath; Dirent.name e]))
      (typeDirectories entries).

(** Can every [type=T] directory be enumerated? *)
Definition allReadable (fs : FileSystem) (databasesPath : string)
  (entries : list Dirent.t) : bool :=
  forallb (fun e => readable fs (Path.join [databasesPath; Dirent.name e]))
          (typeDirectories entries).

(* ================================================================= *)
(** ** Sample file systems *)

Definition lookup {A} (key : string) (table : list (string * A)) : option A :=
  match find (fun kv => String.eqb (fst kv) key) table with
  | Some kv => Some (snd kv)
  | None => None
  end.

(** A file system given by the paths that exist, the listings of its
    directories and the contents of its files; enumerating or reading
    anything else throws. *)
Definition tableFs (existing : list string)
  (directories : list (string * list Dirent.t))
  (files : list (string * string)) : FileSystem :=
  {| fs_existsSync := fun p => existsb (String.eqb p) existing;
     fs_readdirSync := fun p =>
       match lookup p directories with
       | Some entries => inr entries
       | None => inl ("ENOENT: no such file or directory, scandir " ++ p)%string
       end;
     fs_readFileSync := fun p =>
       match lookup p files with
       | Some text => inr text
       | None => inl ("EACCES: permission denied, open " ++ p)%string
       end |}.

Definition dir (n : string) : Dirent.t := Dirent.make n true.
Definition file (n : string) : Dirent.t := Dirent.make n false.

Definition sampleEnv : Env := {| NAO_DEFAULT_PROJECT_PATH := Some "/srv/nao" |}.
Definition unsetEnv : Env := {| NAO_DEFAULT_PROJECT_PATH := None |}.
Definition emptyEnv : Env := {| NAO_DEFAULT_PROJECT_PATH := Some "" |}.

Definition sampleFs : FileSystem :=
  tableFs
    [ "/srv/nao/RULES.md"; "/srv/nao/repos"; "/srv/nao/databases";
      "/srv/nao/repos/shop/dbt_project.yml";
      "/srv/nao/repos/shop/dbt/dbt_project.yml";
      "/srv/nao/repos/warehouse/dbt/dbt_project.yml";
      "/srv/nao/dbt-index/warehouse/manifest.md";
      "/srv/nao/dbt-index/notes/manifest.md" ]
    [ ("/srv/nao/repos",
       [dir "shop"; file "README.md"; dir "warehouse"; dir "notes"]);
      ("/srv/nao/databases",
       [dir "type=postgres"; dir "type="; file "type=csv"; dir "cache";
        dir "type=bigquery"]);
      ("/srv/nao/databases/type=postgres",
       [dir "database=sales"; dir "database="; file "database=tmp";
        dir "database=marketing"]);
      ("/srv/nao/databases/type=",
       [dir "database=x"]);
      ("/srv/nao/databases/type=bigquery",
       [dir "database=sales"; dir "schemas"]) ]
    [ ("/srv/nao/RULES.md", "Always answer in SQL.") ].

(** What the scanners find on [sampleFs]. *)
Definition notesRepository : Repository :=
  {| name := "notes"; hasDbtProject := false;
     dbtProjectPath := None; indexed := Some false |}.

Definition sampleRepositories : list Repository :=
  [ {| name := "shop"; hasDbtProject := true;
       dbtProjectPath := Some "repos/shop"; indexed := Some false |};
    {| name := "warehouse"; hasDbtProject := true;
       dbtProjectPath := Some "repos/warehouse/dbt"; indexed := Some true |};
    notesRepository ].

Definition sampleConnections : list Connection :=
  [ {| type := "postgres"; database := "sales" |};
    {| type := "postgres"; database := "marketing" |};
    {| type := "bigquery"; database := "sales" |} ].

(** [repos/] and [databases/] exist and are empty, [RULES.md] is empty. *)
Definition bareFs : FileSystem :=
  tableFs
    [ "/srv/nao/RULES.md"; "/srv/nao/repos"; "/srv/nao/databases" ]
    [ ("/srv/nao/repos", []); ("/srv/nao/databases", []) ]
    [ ("/srv/nao/RULES.md", "") ].

(** Everything exists, nothing can be enumerated or read. *)
Definition lockedFs : FileSystem :=
  tableFs
    [ "/srv/nao/RULES.md"; "/srv/nao/repos"; "/srv/nao/databases" ] [] [].

(** [databases/] lists two type directories, the second unreadable. *)
Definition halfReadableFs : FileSystem :=
  tableFs
    [ "/srv/nao/databases" ]
    [ ("/srv/nao/databases", [dir "type=postgres"; dir "type=mysql"]);
      ("/srv/nao/databases/type=postgres", [dir "database=sales"]) ]
    [].

(** [databases/] lists three type directories; the one in the middle
    cannot be enumerated. *)
Definition brokenMiddleFs : FileSystem :=
  tableFs
    [ "/srv/nao/databases" ]
    [ ("/srv/nao/databases",
       [dir "type=postgres"; dir "type=mysql"; dir "type=bigquery"]);
      ("/srv/nao/databases/type=postgres", [dir "database=sales"]);
      ("/srv/nao/databases/type=bigquery", [dir "database=events"]) ]
    [].

(** [sampleFs] with every file emptied and every other directory
    unreadable: only the existence oracle and the listing of [repos/]
    are kept. *)
Definition reposOnlyFs : FileSystem :=
  {| fs_existsSync := fs_existsSync sampleFs;
     fs_readdirSync := fun p =>
       if String.eqb p "/srv/nao/repos" then fs_readdirSync sampleFs p
       else inl "EACCES: permission denied";
     fs_readFileSync := fun _ => inr "" |}.

(** ** Kinds of calls *)

Definition isConsoleError (c : Call) : bool :=
  match c with
  | ConsoleError _ _ => true
  | _ => false
  end.

Definition isReaddirSync (c : Call) : bool :=
  match c with
  | ReaddirSync _ => true
  | _ => false
  end.

Definition isExistsSync (c : Call) : bool :=
  match c with
  | ExistsSync _ => true
  | _ => false
  end.

(* ================================================================= *)
(** * Properties *)

(** ** Running the monad *)

Section Run.
Context {A B : Type}.

Lemma run_bind_returned (m : Js A) (k : A -> Js B) fs a t :
  m fs = (Returned a, t) ->
  bind m k fs = (fst (k a fs), t ++ snd (k a fs)).
Proof.
  intros Hm. unfold bind. rewrite Hm. now destruct (k a fs).
Qed.

Lemma run_bind_thrown (m : Js A) (k : A -> Js B) fs e t :
  m fs = (Thrown e, t) -> bind m k fs = (Thrown e, t).
Proof.
  intros Hm. unfold bind. now rewrite Hm.
Qed.

Lemma run_tryCatch_returned (body : Js A) handler fs a t :
  body fs = (Returned a, t) -> tryCatch body handler fs = (Returned a, t).
Proof.
  intros Hb. unfold tryCatch. now rewrite Hb.
Qed.

Lemma run_tryCatch_thrown (body : Js A) handler fs e t :
  body fs = (Thrown e, t) ->
  tryCatch body handler fs
  = (fst (handler e fs), t ++ snd (handler e fs)).
Proof.
  intros Hb. unfold tryCatch. rewrite Hb. now destruct (handler e fs).
Qed.
End Run.

(** ** The loop bodies *)

Lemma scanRepository_run fs reposPath entry acc :
  scanRepository reposPath entry acc fs
  = if Dirent.isDirectory entry
    then (Returned (acc ++ [repositoryOf fs reposPath entry]),
          probesOf fs reposPath entry)
    else (Returned acc, []).
Proof.
  unfold scanRepository, repositoryOf, probesOf, isProject,
    rootManifest, nestedManifest.
  destruct (Dirent.isDirectory entry); [ | reflexivity ].
  cbn [negb]. unfold bind, existsSync, ret.
  destruct (fs_existsSync fs (Path.join [reposPath; Dirent.name entry; "dbt_project.yml"]));
    [ reflexivity | ].
  destruct (fs_existsSync fs (Path.join [reposPath; Dirent.name entry; "dbt"; "dbt_project.yml"]));
    reflexivity.
Qed.

Lemma forOf_scanRepository fs reposPath entries : forall acc,
  forOf entries (scanRepository reposPath) acc fs
  = (Returned (acc ++ map (repositoryOf fs reposPath)
                          (filter Dirent.isDirectory entries)),
     flat_map (probesOf fs reposPath) (filter Dirent.isDirectory entries)).
Proof.
  induction entries as [ | e entries IH ]; intros acc; cbn [forOf filter].
  - unfold ret. cbn. now rewrite app_nil_r.
  - unfold bind at 1. rewrite scanRepository_run.
    destruct (Dirent.isDirectory e); rewrite IH; cbn.
    + now rewrite <- app_assoc.
    + reflexivity.
Qed.

(** ** The three functions, run to the end *)

Lemma getRepositories_run env fs :
  getRepositories env fs
  = if falsy (NAO_DEFAULT_PROJECT_PATH env) then (Returned None, [])
    else
      let reposPath :=
        Path.join [asString (NAO_DEFAULT_PROJECT_PATH env); "repos"] in
      if fs_existsSync fs reposPath then
        match fs_readdirSync fs reposPath with
        | inr entries =>
            let dirs := filter Dirent.isDirectory entries in
            (Returned (nonEmptyOrNull (map (repositoryOf fs reposPath) dirs)),
             ExistsSync reposPath :: ReaddirSync reposPath
             :: flat_map (probesOf fs reposPath) dirs)
        | inl e =>
            (Returned None,
             [ExistsSync reposPath; ReaddirSync reposPath;
              ConsoleError "Error reading repos folder:" e])
        end
      else (Returned None, [ExistsSync reposPath]).
Proof.
  unfold getRepositories.
  destruct (falsy (NAO_DEFAULT_PROJECT_PATH env)); [ reflexivity | ].
  set (reposPath := Path.join _). cbv zeta.
  unfold bind at 1, existsSync at 1.
  destruct (fs_existsSync fs reposPath); [ | reflexivity ].
  cbn [negb app].
  destruct (fs_readdirSync fs reposPath) as [ e | entries ] eqn:Hdir.
  - rewrite run_tryCatch_thrown with (e := e) (t := [ReaddirSync reposPath]).
    + reflexivity.
    + unfold bind, readdirSync. now rewrite Hdir.
  - erewrite run_tryCatch_returned; [ reflexivity | ].
    unfold bind at 1, readdirSync at 1. rewrite Hdir. cbn [ofResult].
    unfold bind. rewrite forOf_scanRepository. unfold ret.
    cbn [app]. now rewrite app_nil_r.
Qed.

Lemma getUserRules_run env fs :
  getUserRules env fs
  = if falsy (NAO_DEFAULT_PROJECT_PATH env) then (Returned None, [])
    else
      let rulesPath :=
        Path.join [asString (NAO_DEFAULT_PROJECT_PATH env); "RULES.md"] in
      if fs_existsSync fs rulesPath then
        match fs_readFileSync fs rulesPath with
        | inr text =>
            (Returned (Some text),
             [ExistsSync rulesPath; ReadFileSync rulesPath])
        | inl e =>
            (Returned None,
             [ExistsSync rulesPath; ReadFileSync rulesPath;
              ConsoleError "Error reading RULES.md:" e])
        end
      else (Returned None, [ExistsSync rulesPath]).
Proof.
  unfold getUserRules.
  destruct (falsy (NAO_DEFAULT_PROJECT_PATH env)); [ reflexivity | ].
  set (rulesPath := Path.join _). cbv zeta.
  unfold bind at 1, existsSync at 1.
  destruct (fs_existsSync fs rulesPath); [ | reflexivity ].
  cbn [negb app].
  unfold tryCatch, bind, readFileSync, console_error, ret.
  destruct (fs_readFileSync fs rulesPath); reflexivity.
Qed.

(** ** [key=value] names *)

Lemma stripPrefix_startsWith key : forall s,
  stripPrefix key s
  = if JsString.startsWith s key
    then Some (JsString.slice (String.length key) s)
    else None.
Proof.
  unfold JsString.startsWith.
  induction key as [ | k key IH ]; intros s.
  - destruct s; reflexivity.
  - destruct s as [ | c s ]; [ reflexivity | ].
    cbn [stripPrefix String.prefix String.length JsString.slice].
    rewrite IH.
    destruct (Ascii.eqb k c) eqn:Hkc.
    + apply Ascii.eqb_eq in Hkc. subst c.
      destruct (ascii_dec k k); [ reflexivity | contradiction ].
    + apply Ascii.eqb_neq in Hkc.
      destruct (ascii_dec k c); [ contradiction | reflexivity ].
Qed.

Lemma stripPrefix_spec key : forall s v,
  stripPrefix key s = Some v <-> s = (key ++ v)%string.
Proof.
  induction key as [ | k key IH ]; intros s v; cbn.
  - split; congruence.
  - destruct s as [ | c s ].
    + split; discriminate.
    + destruct (Ascii.eqb k c) eqn:Hkc.
      * apply Ascii.eqb_eq in Hkc. subst c. rewrite IH.
        split; [ congruence | ]. intros H. now inversion H.
      * apply Ascii.eqb_neq in Hkc.
        split; [ discriminate | ]. intros H. congruence.
Qed.

Lemma append_cancel_l (key : string) : forall v w,
  (key ++ v)%string = (key ++ w)%string -> v = w.
Proof.
  induction key as [ | k key IH ]; cbn; intros v w H; [ exact H | ].
  inversion H. auto.
Qed.

Lemma keyValue_spec key entry v :
  keyValue key entry = Some v
  <-> Dirent.isDirectory entry = true
      /\ Dirent.name entry = (key ++ v)%string
      /\ v <> "".
Proof.
  unfold keyValue.
  destruct (Dirent.isDirectory entry).
  - destruct (stripPrefix key (Dirent.name entry)) as [ w | ] eqn:Hs.
    + apply stripPrefix_spec in Hs.
      destruct w as [ | c w ].
      * split; [ discriminate | ].
        intros (_ & Hn & Hv). rewrite Hs in Hn.
        apply append_cancel_l in Hn. congruence.
      * split.
        -- intros H. inversion H. subst v.
           repeat split; [ exact Hs | discriminate ].
        -- intros (_ & Hn & _). rewrite Hs in Hn.
           apply append_cancel_l in Hn. congruence.
    + split; [ discriminate | ].
      intros (_ & Hn & _). apply stripPrefix_spec in Hn. congruence.
  - split; [ discriminate | ]. intros (H & _). discriminate.
Qed.

(** [isDirectory() && startsWith(key)] followed by a truthy [slice] is
    [keyValue]. *)
Lemma keyValue_code key entry :
  keyValue key entry
  = if Dirent.isDirectory entry && JsString.startsWith (Dirent.name entry) key
    then
      let value := JsString.slice (String.length key) (Dirent.name entry) in
      if JsString.truthy value then Some value else None
    else None.
Proof.
  unfold keyValue. rewrite stripPrefix_startsWith.
  destruct (Dirent.isDirectory entry); [ | reflexivity ].
  cbn [andb].
  destruct (JsString.startsWith (Dirent.name entry) key); [ | reflexivity ].
  cbv zeta.
  now destruct (JsString.slice (String.length key) (Dirent.name entry)).
Qed.

Lemma scanDatabase_run fs T dbEntry acc :
  scanDatabase T dbEntry acc fs = (Returned (acc ++ connectionOf T dbEntry), []).
Proof.
  unfold scanDatabase, connectionOf. rewrite keyValue_code.
  destruct (Dirent.isDirectory dbEntry
            && JsString.startsWith (Dirent.name dbEntry) "database=").
  - cbv zeta.
    destruct (JsString.truthy
                (JsString.slice (String.length "database=") (Dirent.name dbEntry)));
      unfold ret; [ reflexivity | now rewrite app_nil_r ].
  - unfold ret. now rewrite app_nil_r.
Qed.

Lemma forOf_scanDatabase fs T dbEntries : forall acc,
  forOf dbEntries (scanDatabase T) acc fs
  = (Returned (acc ++ flat_map (connectionOf T) dbEntries), []).
Proof.
  induction dbEntries as [ | d dbEntries IH ]; intros acc; cbn [forOf flat_map].
  - unfold ret. now rewrite app_nil_r.
  - unfold bind. rewrite scanDatabase_run, IH. now rewrite <- app_assoc.
Qed.

Lemma scanType_run fs databasesPath entry acc :
  scanType databasesPath entry acc fs
  = match keyValue "type=" entry with
    | Some _ =>
        let typePath := Path.join [databasesPath; Dirent.name entry] in
        match fs_readdirSync fs typePath with
        | inr _ =>
            (Returned (acc ++ connectionsUnder fs databasesPath entry),
             [ReaddirSync typePath])
        | inl e => (Thrown e, [ReaddirSync typePath])
        end
    | None => (Returned acc, [])
    end.
Proof.
  unfold scanType, connectionsUnder, listing. rewrite keyValue_code.
  destruct (Dirent.isDirectory entry
            && JsString.startsWith (Dirent.name entry) "type="); [ | reflexivity ].
  cbv zeta.
  destruct (JsString.truthy
              (JsString.slice (String.length "type=") (Dirent.name entry)));
    [ | reflexivity ].
  unfold bind, readdirSync.
  destruct (fs_readdirSync fs (Path.join [databasesPath; Dirent.name entry]))
    as [ e | dbEntries ]; cbn [ofResult]; [ reflexivity | ].
  now rewrite forOf_scanDatabase.
Qed.

Lemma forOf_scanType_readable fs databasesPath entries : forall acc,
  allReadable fs databasesPath entries = true ->
  forOf entries (scanType databasesPath) acc fs
  = (Returned (acc ++ declaredConnections fs databasesPath entries),
     typeListings databasesPath entries).
Proof.
  unfold allReadable, typeListings, typeDirectories, declaredConnections.
  induction entries as [ | e entries IH ]; intros acc Hall;
    cbn [forOf flat_map filter].
  - unfold ret. cbn. now rewrite app_nil_r.
  - unfold bind. rewrite scanType_run. cbn [filter] in Hall.
    unfold connectionsUnder at 2.
    destruct (keyValue "type=" e) as [ T | ] eqn:HT.
    + cbn [forallb map] in Hall |- *. apply andb_true_iff in Hall.
      destruct Hall as [ Hr Hall ]. unfold readable in Hr. cbv zeta.
      unfold connectionsUnder at 1. rewrite HT.
      destruct (fs_readdirSync fs (Path.join [databasesPath; Dirent.name e]))
        as [ err | dbEntries ] eqn:Hdir; [ discriminate | ].
      rewrite IH by exact Hall. unfold listing. rewrite Hdir.
      cbn [app]. now rewrite <- app_assoc.
    + rewrite IH by exact Hall. reflexivity.
Qed.

Lemma forOf_scanType_unreadable fs databasesPath entries : forall acc,
  allReadable fs databasesPath entries = false ->
  exists e t, forOf entries (scanType databasesPath) acc fs = (Thrown e, t).
Proof.
  unfold allReadable, typeDirectories.
  induction entries as [ | e entries IH ]; intros acc Hall;
    cbn [forOf filter] in *; [ discriminate | ].
  unfold bind. rewrite scanType_run.
  destruct (keyValue "type=" e) as [ T | ] eqn:HT.
  - cbn [forallb] in Hall. unfold readable in Hall at 1. cbv zeta.
    destruct (fs_readdirSync fs (Path.join [databasesPath; Dirent.name e]))
      as [ err | dbEntries ] eqn:Hdir.
    + now exists err, [ReaddirSync (Path.join [databasesPath; Dirent.name e])].
    + cbn [andb] in Hall.
      destruct (IH (acc ++ connectionsUnder fs databasesPath e) Hall)
        as (err & t & Hrun).
      rewrite Hrun. now eexists _, _.
  - destruct (IH acc Hall) as (err & t & Hrun). rewrite Hrun. now eexists _, _.
Qed.

Lemma getConnections_run env fs :
  let root := NAO_DEFAULT_PROJECT_PATH env in
  let databasesPath := Path.join [asString root; "databases"] in
  result (getConnections env) fs
  = if falsy root then Returned None
    else if fs_existsSync fs databasesPath then
      match fs_readdirSync fs databasesPath with
      | inr entries =>
          if allReadable fs databasesPath entries
          then Returned (nonEmptyOrNull
                           (declaredConnections fs databasesPath entries))
          else Returned None
      | inl _ => Returned None
      end
    else Returned None.
Proof.
  cbv zeta. unfold result, getConnections.
  destruct (falsy (NAO_DEFAULT_PROJECT_PATH env)); [ reflexivity | ].
  set (databasesPath := Path.join _). cbv zeta.
  unfold bind at 1, existsSync at 1.
  destruct (fs_existsSync fs databasesPath); [ | reflexivity ].
  cbn [negb].
  destruct (fs_readdirSync fs databasesPath) as [ e | entries ] eqn:Hdir.
  - rewrite run_tryCatch_thrown with (e := e) (t := [ReaddirSync databasesPath]).
    + reflexivity.
    + unfold bind, readdirSync. now rewrite Hdir.
  - destruct (allReadable fs databasesPath entries) eqn:Hall.
    + erewrite run_tryCatch_returned; [ reflexivity | ].
      unfold bind at 1, readdirSync at 1. rewrite Hdir. cbn [ofResult].
      unfold bind. rewrite forOf_scanType_readable by exact Hall.
      unfold ret. cbn [app]. reflexivity.
    + destruct (forOf_scanType_unreadable fs databasesPath entries [] Hall)
        as (err & t & Hrun).
      rewrite run_tryCatch_thrown
        with (e := err) (t := [ReaddirSync databasesPath] ++ t).
      * reflexivity.
      * unfold bind at 1, readdirSync at 1. rewrite Hdir. cbn [ofResult].
        unfold bind. now rewrite Hrun.
Qed.

(* ================================================================= *)
(** ** Facts about [path.join] *)

Module PathFacts.
Import Path.

Example join_rules : join ["/srv/nao"; "RULES.md"] = "/srv/nao/RULES.md".
Proof. reflexivity. Qed.

Example join_through_parent :
  join [join ["/srv/nao"; "repos"]; ".."; "dbt-index"; "shop"; "manifest.md"]
  = "/srv/nao/dbt-index/shop/manifest.md".
Proof. reflexivity. Qed.

Example join_relative_up :
  join ["../x/"; ".."; ".."; "a//b/./c/"] = "../../a/b/c/".
Proof. reflexivity. Qed.

Example join_nothing : join [""; ""] = ".".
Proof. reflexivity. Qed.

Lemma segments_cons s : exists seg more, segments s = seg :: more.
Proof.
  destruct s as [ | c s ]; cbn; [ now eexists _, _ | ].
  destruct (Ascii.eqb c sep); [ now eexists _, _ | ].
  destruct (segments s); now eexists _, _.
Qed.

(** Splitting distributes over gluing with a separator. *)
Lemma segments_glue a b :
  segments (a ++ String sep b)%string = segments a ++ segments b.
Proof.
  induction a as [ | c a IH ]; [ reflexivity | ].
  cbn [String.append segments]. rewrite IH.
  destruct (Ascii.eqb c sep); [ reflexivity | ].
  destruct (segments_cons a) as (seg & more & Ha). now rewrite Ha.
Qed.

Lemma segments_atoms s : Forall atom (segments s).
Proof.
  induction s as [ | c s IH ]; cbn [segments].
  - now constructor.
  - destruct (Ascii.eqb c sep) eqn:Hc.
    + constructor; [ reflexivity | exact IH ].
    + destruct (segments s) as [ | seg more ].
      * constructor; [ | constructor ].
        unfold atom. cbn. now rewrite Hc.
      * inversion IH as [ | ? ? Hseg Hmore ]; subst.
        constructor; [ | exact Hmore ].
        unfold atom in *. cbn [segments]. now rewrite Hc, Hseg.
  Qed.

Lemma atom_relative s : atom s -> isAbsolute s = false.
Proof.
  unfold atom, isAbsolute. destruct s as [ | c s ]; [ reflexivity | ].
  cbn [segments]. destruct (Ascii.eqb c sep); [ discriminate | reflexivity ].
Qed.

Lemma isAbsolute_append p q :
  p <> "" -> isAbsolute (p ++ q) = isAbsolute p.
Proof.
  destruct p as [ | c p ]; [ contradiction | reflexivity ].
Qed.

Lemma endsWith_append c p q :
  q <> "" -> JsString.endsWith c (p ++ q) = JsString.endsWith c q.
Proof.
  intros Hq. induction p as [ | d p IH ]; [ reflexivity | ].
  cbn [String.append JsString.endsWith]. rewrite IH.
  destruct (p ++ q)%string eqn:Hpq; [ | reflexivity ].
  destruct p, q; try discriminate. contradiction.
Qed.

(** Resolution of a list of segments goes piece by piece. *)
Lemma resolve_app a l1 : forall stack l2,
  resolve a stack (l1 ++ l2) = resolve a (resolve a stack l1) l2.
Proof.
  induction l1 as [ | seg l1 IH ]; intros stack l2; [ reflexivity | ].
  cbn [app resolve].
  destruct ((seg =? "") || (seg =? ".")); [ apply IH | ].
  destruct (seg =? "..")%string; [ | apply IH ].
  destruct stack as [ | top below ]; [ apply IH | ].
  destruct (top =? "..")%string; apply IH.
Qed.
(** *** Resolved stacks *)

Lemma dots_resolved l :
  forallb (String.eqb "..") l = true -> resolved true l = true.
Proof.
  induction l as [ | top below IH ]; cbn [forallb resolved]; [ easy | ].
  intros H. apply andb_true_iff in H. destruct H as [ Htop Hbelow ].
  rewrite String.eqb_sym, Htop. exact Hbelow.
Qed.

Lemma resolved_below a top below :
  resolved a (top :: below) = true -> resolved a below = true.
Proof.
  cbn [resolved]. destruct (top =? "..")%string; intros H;
    apply andb_true_iff in H; destruct H as [ H1 H2 ].
  - subst a. now apply dots_resolved.
  - exact H2.
Qed.

Lemma resolve_resolved a segs : forall stack,
  resolved a stack = true -> resolved a (resolve a stack segs) = true.
Proof.
  induction segs as [ | seg rest IH ]; intros stack Hst; [ exact Hst | ].
  cbn [resolve].
  destruct (seg =? "")%string eqn:He; [ now apply IH | ].
  destruct (seg =? ".")%string eqn:Hd; [ now apply IH | ].
  cbn [orb].
  destruct (seg =? "..")%string eqn:Hdd.
  - destruct stack as [ | top below ].
    + apply IH. now destruct a.
    + destruct (top =? "..")%string eqn:Htop.
      * apply IH. destruct a; [ | exact Hst ].
        cbn [resolved] in Hst. rewrite Htop in Hst.
        cbn [resolved forallb].
        now rewrite String.eqb_refl, (String.eqb_sym ".." top), Htop.
      * apply IH. now apply resolved_below with top.
  - apply IH. cbn [resolved]. rewrite Hdd. unfold isName.
    now rewrite He, Hd, Hdd.
Qed.

Lemma resolve_atoms a segs : forall stack,
  Forall atom stack -> Forall atom segs ->
  Forall atom (resolve a stack segs).
Proof.
  induction segs as [ | seg rest IH ]; intros stack Hst Hsegs; [ exact Hst | ].
  inversion Hsegs as [ | ? ? Hseg Hrest ]; subst.
  cbn [resolve].
  destruct ((seg =? "") || (seg =? ".")); [ now apply IH | ].
  destruct (seg =? "..")%string; [ | apply IH; [ now constructor | exact Hrest ] ].
  destruct stack as [ | top below ].
  - apply IH; [ | exact Hrest ]. destruct a; now repeat constructor.
  - inversion Hst; subst.
    destruct (top =? "..")%string; [ | now apply IH ].
    apply IH; [ | exact Hrest ]. destruct a; [ now constructor | exact Hst ].
Qed.

Lemma resolve_up a stack rest :
  resolve a stack (".." :: rest)
  = match stack with
    | top :: below =>
        if (top =? "..")%string
        then resolve a (if a then ".." :: stack else stack) rest
        else resolve a below rest
    | [] => resolve a (if a then [".."] else []) rest
    end.
Proof. reflexivity. Qed.

Lemma resolve_name a stack seg rest :
  isName seg = true ->
  resolve a stack (seg :: rest) = resolve a (seg :: stack) rest.
Proof.
  unfold isName. intros H. cbn [resolve].
  destruct (seg =? "")%string; [ discriminate | ].
  destruct (seg =? ".")%string; [ discriminate | ].
  destruct (seg =? "..")%string; [ discriminate | reflexivity ].
Qed.

Lemma resolve_skip a stack rest :
  resolve a stack ("" :: rest) = resolve a stack rest.
Proof. reflexivity. Qed.

(** Resolving an already resolved sequence changes nothing. *)
Lemma resolve_rev_resolved a stack :
  resolved a stack = true -> resolve a [] (rev stack) = stack.
Proof.
  induction stack as [ | top below IH ]; intros Hst; [ reflexivity | ].
  cbn [rev]. rewrite resolve_app, IH by now apply resolved_below with top.
  cbn [resolved] in Hst.
  destruct (top =? "..")%string eqn:Htop.
  - apply String.eqb_eq in Htop. subst top. rewrite resolve_up.
    apply andb_true_iff in Hst. destruct Hst as [ -> Hdots ].
    destruct below as [ | t b ]; [ reflexivity | ].
    cbn [forallb] in Hdots. apply andb_true_iff in Hdots.
    destruct Hdots as [ Ht _ ]. rewrite String.eqb_sym in Ht. now rewrite Ht.
  - apply andb_true_iff in Hst. destruct Hst as [ Hname _ ].
    now rewrite resolve_name.
Qed.

(** *** Gluing atoms and splitting them again *)

Lemma concat_glue x y l :
  String.concat "/" (x :: y :: l)
  = (x ++ String sep (String.concat "/" (y :: l)))%string.
Proof. reflexivity. Qed.

Lemma segments_concat l :
  Forall atom l -> l <> [] -> segments (String.concat "/" l) = l.
Proof.
  induction l as [ | x l IH ]; intros Hl Hne; [ contradiction | ].
  inversion Hl as [ | ? ? Hx Hrest ]; subst.
  destruct l as [ | y l ]; [ exact Hx | ].
  rewrite concat_glue, segments_glue, Hx, IH; [ reflexivity | exact Hrest | discriminate ].
Qed.

Lemma concat_snoc_nonempty l x :
  x <> "" -> String.concat "/" (l ++ [x]) <> "".
Proof.
  intros Hx. induction l as [ | y l IH ]; [ exact Hx | ].
  cbn [app]. destruct (l ++ [x]) as [ | z l' ] eqn:Hl.
  - now destruct l.
  - rewrite concat_glue. now destruct y.
Qed.
Lemma append_empty_r s : (s ++ "")%string = s.
Proof. induction s; cbn; congruence. Qed.

Lemma append_assoc s t u : ((s ++ t) ++ u)%string = (s ++ t ++ u)%string.
Proof. induction s; cbn; congruence. Qed.

(** *** Normalising a path that is not empty *)

Lemma normalize_unfold p :
  p <> "" ->
  normalize p
  = render (isAbsolute p) (JsString.endsWith sep p)
      (resolve (negb (isAbsolute p)) [] (segments p)).
Proof. destruct p; [ contradiction | reflexivity ]. Qed.

Lemma render_nonempty absolute trailing stack :
  String.concat "/" (rev stack) <> "" ->
  render absolute trailing stack
  = ((if absolute then "/" else "")
     ++ String.concat "/" (rev stack)
     ++ (if trailing then "/" else ""))%string.
Proof.
  unfold render. destruct (String.concat "/" (rev stack)) as [ | c body ];
    [ contradiction | intros _ ].
  destruct absolute, trailing; cbn [String.append];
    now rewrite ?append_empty_r.
Qed.

Lemma render_not_empty absolute trailing stack :
  render absolute trailing stack <> "".
Proof.
  unfold render. destruct (String.concat "/" (rev stack));
    destruct absolute, trailing; discriminate.
Qed.

Lemma normalize_nonempty p : normalize p <> "".
Proof.
  destruct p as [ | c p ]; [ discriminate | apply render_not_empty ].
Qed.

Lemma atom_inv c s : atom (String c s) -> Ascii.eqb c sep = false /\ atom s.
Proof.
  unfold atom. cbn [segments].
  destruct (Ascii.eqb c sep); [ discriminate | ].
  destruct (segments_cons s) as (seg & more & Hs). rewrite Hs.
  intros H. inversion H. subst. auto.
Qed.

Lemma atom_no_trailing s : atom s -> JsString.endsWith sep s = false.
Proof.
  induction s as [ | c s IH ]; [ reflexivity | ].
  intros H. apply atom_inv in H. destruct H as [ Hc Hs ].
  cbn [JsString.endsWith]. destruct s; [ exact Hc | now apply IH ].
Qed.

Lemma resolved_nonempty a stack :
  resolved a stack = true -> Forall (fun s => s <> "") stack.
Proof.
  induction stack as [ | top below IH ]; intros H; constructor.
  - cbn [resolved] in H. intros ->. cbn in H. discriminate.
  - apply IH. now apply resolved_below with top.
Qed.

Lemma concat_relative x l :
  atom x -> x <> "" -> isAbsolute (String.concat "/" (x :: l)) = false.
Proof.
  intros Hx Hne. destruct l as [ | y l ].
  - now apply atom_relative.
  - rewrite concat_glue, isAbsolute_append by exact Hne.
    now apply atom_relative.
Qed.
(** *** A child directory and the way back up *)

Section Child.
Variables (root child : string).
Hypothesis root_set : root <> "".
Hypothesis child_name : isName child = true.
Hypothesis child_atom : atom child.

Lemma stack_resolved : resolved (negb (isAbsolute root)) (child :: stackOf root) = true.
Proof.
  cbn [resolved]. unfold isName in child_name |- *.
  destruct (child =? "..")%string;
    [ now rewrite andb_false_r in child_name | ].
  rewrite andb_true_r in child_name. rewrite child_name.
  now apply resolve_resolved.
Qed.

Lemma stack_atoms : Forall atom (rev (child :: stackOf root)).
Proof.
  apply Forall_rev. constructor; [ exact child_atom | ].
  apply resolve_atoms; [ constructor | apply segments_atoms ].
Qed.

Lemma child_not_empty : child <> "".
Proof. intros ->. discriminate. Qed.

(** [normalize (root/child)]: the resolved root, then the child. *)
Lemma normalize_child :
  normalize (root ++ String sep child)
  = ((if isAbsolute root then "/" else "")
     ++ String.concat "/" (rev (child :: stackOf root)))%string.
Proof.
  rewrite normalize_unfold by now destruct root.
  rewrite isAbsolute_append by exact root_set.
  rewrite endsWith_append by discriminate.
  replace (JsString.endsWith sep (String sep child)) with false.
  2:{ pose proof (atom_no_trailing child_atom) as Ht.
      pose proof child_not_empty. now destruct child. }
  rewrite segments_glue, child_atom, resolve_app.
  rewrite resolve_name by exact child_name.
  cbn [resolve]. fold (stackOf root).
  rewrite render_nonempty by (cbn [rev]; apply concat_snoc_nonempty, child_not_empty).
  now rewrite append_empty_r.
Qed.

Lemma normalize_child_absolute :
  isAbsolute (normalize (root ++ String sep child)) = isAbsolute root.
Proof.
  rewrite normalize_child. destruct (isAbsolute root) eqn:Habs; [ reflexivity | ].
  cbn [String.append].
  pose proof stack_atoms as Hat.
  pose proof (resolved_nonempty _ _ stack_resolved) as Hne.
  apply Forall_rev in Hne.
  destruct (rev (child :: stackOf root)) as [ | x l ] eqn:Hrev.
  - cbn [rev] in Hrev. now destruct (rev (stackOf root)).
  - inversion Hat; inversion Hne; subst. now apply concat_relative.
Qed.

Lemma normalize_child_stack :
  resolve (negb (isAbsolute root)) []
    (segments (normalize (root ++ String sep child)))
  = child :: stackOf root.
Proof.
  rewrite normalize_child.
  assert (Hsegs : segments (String.concat "/" (rev (child :: stackOf root)))
                  = rev (child :: stackOf root)).
  { apply segments_concat; [ apply stack_atoms | ].
    cbn [rev]. now destruct (rev (stackOf root)). }
  destruct (isAbsolute root) eqn:Habs.
  - change (segments ("/" ++ ?s)%string) with ("" :: segments s).
    rewrite resolve_skip, Hsegs.
    apply resolve_rev_resolved.
    pose proof stack_resolved as Hres. now rewrite Habs in Hres.
  - cbn [String.append]. rewrite Hsegs.
    apply resolve_rev_resolved.
    pose proof stack_resolved as Hres. now rewrite Habs in Hres.
Qed.

(** Going into [child] and straight back up leads where [root] leads. *)
Lemma normalize_child_parent rest :
  rest <> "" ->
  normalize (normalize (root ++ String sep child)
             ++ String sep (".." ++ String sep rest))
  = normalize (root ++ String sep rest).
Proof.
  intros Hrest.
  rewrite (normalize_unfold (p := normalize _ ++ _)%string).
  2:{ pose proof (normalize_nonempty (root ++ String sep child)) as Hn.
      now destruct (normalize (root ++ String sep child)). }
  rewrite (normalize_unfold (p := (root ++ String sep rest)%string))
    by now destruct root.
  rewrite !isAbsolute_append
    by (exact root_set || apply normalize_nonempty).
  rewrite normalize_child_absolute.
  rewrite !segments_glue, !resolve_app.
  fold (stackOf root). rewrite normalize_child_stack.
  change (segments "..") with [".."].
  rewrite resolve_up.
  unfold isName in child_name.
  destruct (child =? "..")%string;
    [ now rewrite andb_false_r in child_name | ].
  f_equal.
  change (String sep (".." ++ String sep rest))
    with ("/../" ++ rest)%string.
  change (String sep rest) with ("/" ++ rest)%string.
  rewrite <- !append_assoc.
  now rewrite !endsWith_append by exact Hrest.
Qed.
End Child.

(** *** [join] *)

Lemma join_cons p rest y more :
  p <> "" ->
  filter JsString.truthy rest = y :: more ->
  join (p :: rest)
  = normalize (p ++ String sep (String.concat "/" (y :: more))).
Proof.
  intros Hp Hrest. unfold join. cbn [filter].
  destruct p as [ | c p ]; [ contradiction | ].
  cbn [JsString.truthy]. now rewrite Hrest.
Qed.

(** The index artifact is addressed through [repos/..]; this is the
    path directly under the project folder. *)
Lemma index_path root D :
  root <> "" ->
  join [join [root; "repos"]; ".."; "dbt-index"; D; "manifest.md"]
  = join [root; "dbt-index"; D; "manifest.md"].
Proof.
  intros Hroot.
  rewrite (@join_cons root ["repos"] "repos" []) by easy.
  set (tail := filter JsString.truthy [D; "manifest.md"]).
  rewrite (@join_cons _ [".."; "dbt-index"; D; "manifest.md"]
             ".." ("dbt-index" :: tail))
    by (apply normalize_nonempty || reflexivity).
  rewrite (@join_cons root ["dbt-index"; D; "manifest.md"] "dbt-index" tail)
    by easy.
  rewrite concat_glue.
  apply normalize_child_parent; [ exact Hroot | reflexivity | reflexivity | ].
  unfold tail. destruct D; discriminate.
Qed.
End PathFacts.

(* ================================================================= *)
(** ** Results of [getRepositories] *)

Lemma nonEmptyOrNull_some {A} (xs ys : list A) :
  nonEmptyOrNull xs = Some ys -> ys = xs /\ xs <> [].
Proof.
  destruct xs; [ discriminate | ]. cbn. intros H. inversion H. now split.
Qed.

Lemma nonEmptyOrNull_cases {A} (xs : list A) :
  (xs = [] /\ nonEmptyOrNull xs = None)
  \/ (xs <> [] /\ nonEmptyOrNull xs = Some xs).
Proof.
  destruct xs; [ now left | right ]. now split.
Qed.

(** A list comes back only from a complete scan of an existing,
    enumerable [repos/] below a configured root. *)
Lemma getRepositories_some env fs rs :
  result (getRepositories env) fs = Returned (Some rs) ->
  let reposPath :=
    Path.join [asString (NAO_DEFAULT_PROJECT_PATH env); "repos"] in
  exists entries,
    falsy (NAO_DEFAULT_PROJECT_PATH env) = false
    /\ fs_existsSync fs reposPath = true
    /\ fs_readdirSync fs reposPath = inr entries
    /\ rs = map (repositoryOf fs reposPath) (filter Dirent.isDirectory entries)
    /\ rs <> [].
Proof.
  unfold result. rewrite getRepositories_run. cbv zeta.
  destruct (falsy (NAO_DEFAULT_PROJECT_PATH env)); [ discriminate | ].
  destruct (fs_existsSync fs _); [ | discriminate ].
  destruct (fs_readdirSync fs _) as [ e | entries ]; [ discriminate | ].
  cbn [fst]. intros H. inversion H as [ Hrs ].
  apply nonEmptyOrNull_some in Hrs. destruct Hrs as [ -> Hne ].
  exists entries. repeat split. exact Hne.
Qed.

Lemma repositoryOf_name fs reposPath entry :
  name (repositoryOf fs reposPath entry) = Dirent.name entry.
Proof.
  unfold repositoryOf.
  destruct (fs_existsSync fs (rootManifest _ _)); [ reflexivity | ].
  destruct (fs_existsSync fs (nestedManifest _ _)); reflexivity.
Qed.

Lemma falsy_false_not_empty v : falsy v = false -> asString v <> "".
Proof.
  destruct v as [ [ | c s ] | ]; cbn; congruence.
Qed.

(** The probes of a directory entry, with the index artifact addressed
    directly under the project folder. *)
Lemma probesOf_expected fs root entry :
  root <> "" ->
  probesOf fs (Path.join [root; "repos"]) entry = expectedProbes fs root entry.
Proof.
  intros Hroot. unfold probesOf, expectedProbes, indexArtifact.
  now rewrite PathFacts.index_path.
Qed.

Lemma repositoryOf_indexed fs root entry :
  root <> "" ->
  let r := repositoryOf fs (Path.join [root; "repos"]) entry in
  indexed r
  = Some (hasDbtProject r && fs_existsSync fs (indexArtifact root (name r))).
Proof.
  intros Hroot. cbv zeta. unfold repositoryOf, indexArtifact.
  rewrite PathFacts.index_path by exact Hroot.
  destruct (fs_existsSync fs (rootManifest _ _)); [ reflexivity | ].
  destruct (fs_existsSync fs (nestedManifest _ _)); reflexivity.
Qed.

(* ================================================================= *)
(** * The claims *)

(** C1, refuted as stated: on [sampleFs] the directory [notes] holds no
    manifest, and its record carries [indexed = false], not an absent
    [indexed]. *)
Lemma C1_indexed_absent_counterexample :
  ~ (forall env fs rs r,
        result (getRepositories env) fs = Returned (Some rs) ->
        In r rs ->
        hasDbtProject r = false ->
        indexed r = None).
Proof.
  intros claim.
  specialize (claim sampleEnv sampleFs sampleRepositories notesRepository
                eq_refl).
  assert (indexed notesRepository = None) as absurd; [ | discriminate absurd ].
  apply claim; [ | reflexivity ].
  right; right; left; reflexivity.
Qed.

(** C1, amended: for every directory entry under repos/ that has no
    manifest (hasDbtProject = false), the record returned by
    getRepositories carries indexed = false (the property is present)
    and no dbtProjectPath; "not a project" is told from "project, not
    yet indexed" by hasDbtProject, not by indexed. *)
Theorem C1_non_project_indexed_false env fs rs r :
  result (getRepositories env) fs = Returned (Some rs) ->
  In r rs ->
  hasDbtProject r = false ->
  indexed r = Some false /\ dbtProjectPath r = None.
Proof.
  intros Hrun Hin Hnot.
  destruct (getRepositories_some _ _ Hrun) as (entries & _ & _ & _ & -> & _).
  apply in_map_iff in Hin. destruct Hin as (e & <- & _).
  revert Hnot. unfold repositoryOf.
  destruct (fs_existsSync fs (rootManifest _ _)); [ discriminate | ].
  destruct (fs_existsSync fs (nestedManifest _ _)); [ discriminate | ].
  now split.
Qed.

Lemma C1_non_project_indexed_false_witness :
  result (getRepositories sampleEnv) sampleFs = Returned (Some sampleRepositories)
  /\ In notesRepository sampleRepositories
  /\ hasDbtProject notesRepository = false
  /\ indexed notesRepository = Some false
  /\ dbtProjectPath notesRepository = None.
Proof.
  assert (Hrun : result (getRepositories sampleEnv) sampleFs
                 = Returned (Some sampleRepositories))
    by (vm_compute; reflexivity).
  assert (Hin : In notesRepository sampleRepositories)
    by (right; right; left; reflexivity).
  split; [ exact Hrun | ]. split; [ exact Hin | ]. split; [ reflexivity | ].
  exact (@C1_non_project_indexed_false sampleEnv sampleFs sampleRepositories
           notesRepository Hrun Hin eq_refl).
Defined.

(** C2: getRepositories and getConnections each return null or a
    non-empty list, never an empty array; in particular an existing
    repos/ directory without entries yields null. *)
Theorem C2_null_or_non_empty env fs :
  (result (getRepositories env) fs = Returned None
   \/ exists rs, rs <> [] /\ result (getRepositories env) fs = Returned (Some rs))
  /\ (result (getConnections env) fs = Returned None
      \/ exists cs, cs <> [] /\ result (getConnections env) fs = Returned (Some cs))
  /\ (fs_readdirSync fs
        (Path.join [asString (NAO_DEFAULT_PROJECT_PATH env); "repos"]) = inr []
      -> result (getRepositories env) fs = Returned None).
Proof.
  split; [ | split ].
  - unfold result. rewrite getRepositories_run. cbv zeta.
    destruct (falsy _); [ now left | ].
    destruct (fs_existsSync fs _); [ | now left ].
    destruct (fs_readdirSync fs _) as [ e | entries ]; [ now left | ].
    cbn [fst].
    destruct (nonEmptyOrNull_cases
                (map (repositoryOf fs (Path.join [asString (NAO_DEFAULT_PROJECT_PATH env); "repos"]))
                     (filter Dirent.isDirectory entries)))
      as [ (_ & ->) | (Hne & ->) ]; [ now left | right ].
    now eexists.
  - rewrite getConnections_run. cbv zeta.
    destruct (falsy _); [ now left | ].
    destruct (fs_existsSync fs _); [ | now left ].
    destruct (fs_readdirSync fs _) as [ e | entries ]; [ now left | ].
    destruct (allReadable fs _ entries); [ | now left ].
    destruct (nonEmptyOrNull_cases
                (declaredConnections fs (Path.join [asString (NAO_DEFAULT_PROJECT_PATH env); "databases"]) entries))
      as [ (_ & ->) | (Hne & ->) ]; [ now left | right ].
    now eexists.
  - intros Hdir. unfold result. rewrite getRepositories_run. cbv zeta.
    destruct (falsy _); [ reflexivity | ].
    destruct (fs_existsSync fs _); [ | reflexivity ].
    now rewrite Hdir.
Qed.

Lemma C2_null_or_non_empty_witness :
  fs_readdirSync bareFs
    (Path.join [asString (NAO_DEFAULT_PROJECT_PATH sampleEnv); "repos"]) = inr []
  /\ result (getRepositories sampleEnv) bareFs = Returned None.
Proof.
  split; [ reflexivity | ].
  apply (proj2 (proj2 (C2_null_or_non_empty sampleEnv bareFs))).
  reflexivity.
Defined.

(** C3, refuted as stated: on [bareFs] RULES.md exists and is empty, and
    getUserRules returns the empty string, which is neither null nor a
    populated result. *)
Lemma C3_populated_or_null_counterexample :
  ~ (forall env fs,
        result (getUserRules env) fs = Returned None
        \/ exists text,
             text <> ""
             /\ result (getUserRules env) fs = Returned (Some text)).
Proof.
  intros claim.
  destruct (claim sampleEnv bareFs) as [ Hnull | (text & Hne & Htext) ].
  - vm_compute in Hnull. discriminate Hnull.
  - vm_compute in Htext. inversion Htext as [ Hempty ].
    apply Hne. now rewrite <- Hempty.
Qed.

(** C3, amended: no operation throws.  getUserRules returns null or the
    text it read, which is the empty string for an empty file;
    getRepositories returns null or the records of all directory
    entries of an enumerated repos/; getConnections returns null or all
    declared connections, every type directory having been enumerated.
    An enumeration that throws, at the top or in the middle of the scan,
    gives null: a list is never partial. *)
Theorem C3_no_throw_no_partial env fs :
  let root := asString (NAO_DEFAULT_PROJECT_PATH env) in
  let rulesPath := Path.join [root; "RULES.md"] in
  let reposPath := Path.join [root; "repos"] in
  let databasesPath := Path.join [root; "databases"] in
  (result (getUserRules env) fs = Returned None
   \/ exists text,
        fs_readFileSync fs rulesPath = inr text
        /\ result (getUserRules env) fs = Returned (Some text))
  /\ (result (getRepositories env) fs = Returned None
      \/ exists entries,
           fs_readdirSync fs reposPath = inr entries
           /\ filter Dirent.isDirectory entries <> []
           /\ result (getRepositories env) fs
              = Returned (Some (map (repositoryOf fs reposPath)
                                    (filter Dirent.isDirectory entries))))
  /\ (result (getConnections env) fs = Returned None
      \/ exists entries,
           fs_readdirSync fs databasesPath = inr entries
           /\ allReadable fs databasesPath entries = true
           /\ declaredConnections fs databasesPath entries <> []
           /\ result (getConnections env) fs
              = Returned (Some (declaredConnections fs databasesPath entries)))
  /\ (forall entries,
        fs_readdirSync fs databasesPath = inr entries ->
        allReadable fs databasesPath entries = false ->
        result (getConnections env) fs = Returned None).
Proof.
  cbv zeta. repeat split.
  - unfold result. rewrite getUserRules_run. cbv zeta.
    destruct (falsy _); [ now left | ].
    destruct (fs_existsSync fs _); [ | now left ].
    destruct (fs_readFileSync fs _) as [ e | text ] eqn:Hread; [ now left | right ].
    now exists text.
  - unfold result. rewrite getRepositories_run. cbv zeta.
    destruct (falsy _); [ now left | ].
    destruct (fs_existsSync fs _); [ | now left ].
    destruct (fs_readdirSync fs _) as [ e | entries ] eqn:Hdir; [ now left | ].
    cbn [fst].
    destruct (filter Dirent.isDirectory entries) as [ | d dirs ] eqn:Hdirs;
      [ now left | right ].
    exists entries. rewrite Hdirs. repeat split. discriminate.
  - rewrite getConnections_run. cbv zeta.
    destruct (falsy _); [ now left | ].
    destruct (fs_existsSync fs _); [ | now left ].
    destruct (fs_readdirSync fs _) as [ e | entries ] eqn:Hdir; [ now left | ].
    destruct (allReadable fs _ entries) eqn:Hall; [ | now left ].
    destruct (nonEmptyOrNull_cases
                (declaredConnections fs (Path.join [asString (NAO_DEFAULT_PROJECT_PATH env); "databases"]) entries))
      as [ (_ & ->) | (Hne & ->) ]; [ now left | right ].
    now exists entries.
  - intros entries Hdir Hall. rewrite getConnections_run. cbv zeta.
    destruct (falsy _); [ reflexivity | ].
    destruct (fs_existsSync fs _); [ | reflexivity ].
    now rewrite Hdir, Hall.
Qed.

Lemma C3_no_throw_no_partial_witness :
  fs_readdirSync halfReadableFs "/srv/nao/databases"
  = inr [dir "type=postgres"; dir "type=mysql"]
  /\ allReadable halfReadableFs "/srv/nao/databases"
       [dir "type=postgres"; dir "type=mysql"] = false
  /\ result (getConnections sampleEnv) halfReadableFs = Returned None.
Proof.
  split; [ reflexivity | ]. split; [ reflexivity | ].
  apply (proj2 (proj2 (proj2 (C3_no_throw_no_partial sampleEnv halfReadableFs)))
           [dir "type=postgres"; dir "type=mysql"]);
    reflexivity.
Defined.

(** C4: with the project root unset, the three operations return null
    and make no platform call at all, whatever the file system holds. *)
Theorem C4_unset_root env fs :
  NAO_DEFAULT_PROJECT_PATH env = None ->
  getUserRules env fs = (Returned None, [])
  /\ getRepositories env fs = (Returned None, [])
  /\ getConnections env fs = (Returned None, []).
Proof.
  intros Hroot. unfold getUserRules, getRepositories, getConnections.
  rewrite Hroot. repeat split.
Qed.

Lemma C4_unset_root_witness :
  NAO_DEFAULT_PROJECT_PATH unsetEnv = None
  /\ getUserRules unsetEnv sampleFs = (Returned None, [])
  /\ getRepositories unsetEnv sampleFs = (Returned None, [])
  /\ getConnections unsetEnv sampleFs = (Returned None, []).
Proof.
  split; [ reflexivity | ].
  apply (C4_unset_root unsetEnv sampleFs). reflexivity.
Defined.

(** C10: a project root set to the empty string is treated as an unset
    one: the three operations return null, make no platform call, and
    run exactly as they do without a root. *)
Theorem C10_empty_root env fs :
  NAO_DEFAULT_PROJECT_PATH env = Some "" ->
  (getUserRules env fs = (Returned None, [])
   /\ getRepositories env fs = (Returned None, [])
   /\ getConnections env fs = (Returned None, []))
  /\ (getUserRules env fs = getUserRules unsetEnv fs
      /\ getRepositories env fs = getRepositories unsetEnv fs
      /\ getConnections env fs = getConnections unsetEnv fs).
Proof.
  intros Hroot. unfold getUserRules, getRepositories, getConnections.
  rewrite Hroot. repeat split.
Qed.

Lemma C10_empty_root_witness :
  NAO_DEFAULT_PROJECT_PATH emptyEnv = Some ""
  /\ getUserRules emptyEnv sampleFs = (Returned None, [])
  /\ getRepositories emptyEnv sampleFs = (Returned None, [])
  /\ getConnections emptyEnv sampleFs = (Returned None, []).
Proof.
  split; [ reflexivity | ].
  apply (proj1 (C10_empty_root emptyEnv sampleFs eq_refl)).
Defined.

(** C9: getUserRules returns the text of <root>/RULES.md as it is read,
    the empty string for an empty file; it returns null when the root is
    not configured, when the file does not exist and when reading it
    throws; it never throws. *)
Theorem C9_rules_verbatim_or_null env fs :
  let root := NAO_DEFAULT_PROJECT_PATH env in
  let rulesPath := Path.join [asString root; "RULES.md"] in
  (forall text,
      falsy root = false ->
      fs_existsSync fs rulesPath = true ->
      fs_readFileSync fs rulesPath = inr text ->
      result (getUserRules env) fs = Returned (Some text))
  /\ (falsy root = false ->
      fs_existsSync fs rulesPath = true ->
      fs_readFileSync fs rulesPath = inr "" ->
      result (getUserRules env) fs = Returned (Some ""))
  /\ (falsy root = true -> result (getUserRules env) fs = Returned None)
  /\ (fs_existsSync fs rulesPath = false ->
      result (getUserRules env) fs = Returned None)
  /\ (forall e,
        fs_readFileSync fs rulesPath = inl e ->
        result (getUserRules env) fs = Returned None)
  /\ (forall e, result (getUserRules env) fs <> Thrown e).
Proof.
  cbv zeta. unfold result. rewrite getUserRules_run. cbv zeta.
  repeat split.
  - intros text -> -> ->. reflexivity.
  - intros -> -> ->. reflexivity.
  - intros ->. reflexivity.
  - intros ->. now destruct (falsy _).
  - intros e ->. destruct (falsy _); [ reflexivity | ].
    now destruct (fs_existsSync fs _).
  - intros e. destruct (falsy _); [ discriminate | ].
    destruct (fs_existsSync fs _); [ | discriminate ].
    destruct (fs_readFileSync fs _); discriminate.
Qed.

Lemma C9_rules_verbatim_or_null_witness :
  (falsy (NAO_DEFAULT_PROJECT_PATH sampleEnv) = false
   /\ fs_existsSync bareFs "/srv/nao/RULES.md" = true
   /\ fs_readFileSync bareFs "/srv/nao/RULES.md" = inr ""
   /\ result (getUserRules sampleEnv) bareFs = Returned (Some ""))
  /\ (fs_readFileSync lockedFs "/srv/nao/RULES.md"
      = inl "EACCES: permission denied, open /srv/nao/RULES.md"
      /\ result (getUserRules sampleEnv) lockedFs = Returned None)
  /\ (fs_existsSync halfReadableFs "/srv/nao/RULES.md" = false
      /\ result (getUserRules sampleEnv) halfReadableFs = Returned None)
  /\ (falsy (NAO_DEFAULT_PROJECT_PATH unsetEnv) = true
      /\ result (getUserRules unsetEnv) sampleFs = Returned None).
Proof.
  split; [ | split; [ | split ] ].
  - split; [ reflexivity | ]. split; [ reflexivity | ]. split; [ reflexivity | ].
    apply (proj1 (C9_rules_verbatim_or_null sampleEnv bareFs) "");
      reflexivity.
  - split; [ reflexivity | ].
    apply (proj1 (proj2 (proj2 (proj2 (proj2
             (C9_rules_verbatim_or_null sampleEnv lockedFs)))))
             "EACCES: permission denied, open /srv/nao/RULES.md").
    reflexivity.
  - split; [ reflexivity | ].
    apply (proj1 (proj2 (proj2 (proj2
             (C9_rules_verbatim_or_null sampleEnv halfReadableFs))))).
    reflexivity.
  - split; [ reflexivity | ].
    apply (proj1 (proj2 (proj2 (C9_rules_verbatim_or_null unsetEnv sampleFs)))).
    reflexivity.
Defined.

(** C8: getRepositories produces one record per directory entry of
    repos/, project or not, in enumeration order; entries that are not
    directories contribute no record.  The list returned is named: it
    has the names of the directory entries, one by one and in their
    order; it is null only when repos/ lists no directory. *)
Theorem C8_one_record_per_directory env fs entries :
  let root := NAO_DEFAULT_PROJECT_PATH env in
  let reposPath := Path.join [asString root; "repos"] in
  falsy root = false ->
  fs_existsSync fs reposPath = true ->
  fs_readdirSync fs reposPath = inr entries ->
  (filter Dirent.isDirectory entries = [] ->
   result (getRepositories env) fs = Returned None)
  /\ (filter Dirent.isDirectory entries <> [] ->
      exists rs,
        result (getRepositories env) fs = Returned (Some rs)
        /\ map name rs = map Dirent.name (filter Dirent.isDirectory entries)
        /\ Forall2 (fun e r => name r = Dirent.name e)
                   (filter Dirent.isDirectory entries) rs).
Proof.
  cbv zeta. intros Hroot Hexists Hdir.
  unfold result. rewrite getRepositories_run. cbv zeta.
  rewrite Hroot, Hexists, Hdir. cbn [fst].
  split.
  - intros ->. reflexivity.
  - intros Hne.
    exists (map (repositoryOf fs (Path.join [asString (NAO_DEFAULT_PROJECT_PATH env); "repos"]))
                (filter Dirent.isDirectory entries)).
    split; [ | split ].
    + destruct (filter Dirent.isDirectory entries); [ contradiction | reflexivity ].
    + rewrite map_map. apply map_ext. intros e. apply repositoryOf_name.
    + clear Hne. induction (filter Dirent.isDirectory entries) as [ | e dirs IH ];
        cbn [map]; constructor; [ apply repositoryOf_name | exact IH ].
Qed.

Lemma C8_one_record_per_directory_witness :
  falsy (NAO_DEFAULT_PROJECT_PATH sampleEnv) = false
  /\ fs_existsSync sampleFs "/srv/nao/repos" = true
  /\ fs_readdirSync sampleFs "/srv/nao/repos"
     = inr [dir "shop"; file "README.md"; dir "warehouse"; dir "notes"]
  /\ filter Dirent.isDirectory
       [dir "shop"; file "README.md"; dir "warehouse"; dir "notes"] <> []
  /\ exists rs,
       result (getRepositories sampleEnv) sampleFs = Returned (Some rs)
       /\ map name rs = ["shop"; "warehouse"; "notes"]
       /\ Forall2 (fun e r => name r = Dirent.name e)
                  [dir "shop"; dir "warehouse"; dir "notes"] rs.
Proof.
  assert (Hne : filter Dirent.isDirectory
                  [dir "shop"; file "README.md"; dir "warehouse"; dir "notes"]
                <> [])
    by (cbn; discriminate).
  split; [ reflexivity | ]. split; [ reflexivity | ]. split; [ reflexivity | ].
  split; [ exact Hne | ].
  exact (proj2 (@C8_one_record_per_directory sampleEnv sampleFs
                  [dir "shop"; file "README.md"; dir "warehouse"; dir "notes"]
                  eq_refl eq_refl eq_refl)
               Hne).
Defined.

(** C5: every directory D under repos/ has a record; a record named D
    has hasDbtProject = true and dbtProjectPath = "repos/D" when
    repos/D/dbt_project.yml exists (also when the nested manifest exists
    as well), and dbtProjectPath = "repos/D/dbt" when only
    repos/D/dbt/dbt_project.yml exists: the path of the directory that
    holds the manifest. *)
Theorem C5_manifest_location env fs rs :
  let root := NAO_DEFAULT_PROJECT_PATH env in
  let reposPath := Path.join [asString root; "repos"] in
  result (getRepositories env) fs = Returned (Some rs) ->
  (exists entries,
      fs_readdirSync fs reposPath = inr entries
      /\ forall e, In e entries -> Dirent.isDirectory e = true ->
                   exists r, In r rs /\ name r = Dirent.name e)
  /\ forall r, In r rs ->
       let D := name r in
       (fs_existsSync fs (Path.join [reposPath; D; "dbt_project.yml"]) = true ->
        hasDbtProject r = true
        /\ dbtProjectPath r = Some ("repos/" ++ D)%string)
       /\ (fs_existsSync fs (Path.join [reposPath; D; "dbt_project.yml"]) = false ->
           fs_existsSync fs (Path.join [reposPath; D; "dbt"; "dbt_project.yml"]) = true ->
           hasDbtProject r = true
           /\ dbtProjectPath r = Some ("repos/" ++ D ++ "/dbt")%string)
       /\ (fs_existsSync fs (Path.join [reposPath; D; "dbt_project.yml"]) = false ->
           fs_existsSync fs (Path.join [reposPath; D; "dbt"; "dbt_project.yml"]) = false ->
           hasDbtProject r = false /\ dbtProjectPath r = None).
Proof.
  cbv zeta. intros Hrun.
  destruct (getRepositories_some _ _ Hrun) as (entries & _ & _ & Hdir & -> & _).
  split.
  - exists entries. split; [ exact Hdir | ].
    intros e Hin Hd. eexists. split.
    + apply in_map. apply filter_In. split; eassumption.
    + apply repositoryOf_name.
  - intros r Hin. apply in_map_iff in Hin. destruct Hin as (e & <- & _).
    rewrite repositoryOf_name. unfold repositoryOf, rootManifest, nestedManifest.
    destruct (fs_existsSync fs (Path.join [_; Dirent.name e; "dbt_project.yml"]));
      [ repeat split; discriminate | ].
    destruct (fs_existsSync fs (Path.join [_; Dirent.name e; "dbt"; "dbt_project.yml"]));
      repeat split; discriminate.
Qed.

Lemma C5_manifest_location_witness :
  result (getRepositories sampleEnv) sampleFs = Returned (Some sampleRepositories)
  /\ (forall r, In r sampleRepositories ->
        (fs_existsSync sampleFs
           (Path.join ["/srv/nao/repos"; name r; "dbt_project.yml"]) = true ->
         hasDbtProject r = true
         /\ dbtProjectPath r = Some ("repos/" ++ name r)%string)
        /\ (fs_existsSync sampleFs
              (Path.join ["/srv/nao/repos"; name r; "dbt_project.yml"]) = false ->
            fs_existsSync sampleFs
              (Path.join ["/srv/nao/repos"; name r; "dbt"; "dbt_project.yml"]) = true ->
            hasDbtProject r = true
            /\ dbtProjectPath r = Some ("repos/" ++ name r ++ "/dbt")%string)
        /\ (fs_existsSync sampleFs
              (Path.join ["/srv/nao/repos"; name r; "dbt_project.yml"]) = false ->
            fs_existsSync sampleFs
              (Path.join ["/srv/nao/repos"; name r; "dbt"; "dbt_project.yml"]) = false ->
            hasDbtProject r = false /\ dbtProjectPath r = None)).
Proof.
  assert (Hrun : result (getRepositories sampleEnv) sampleFs
                 = Returned (Some sampleRepositories))
    by (vm_compute; reflexivity).
  split; [ exact Hrun | ].
  exact (proj2 (@C5_manifest_location sampleEnv sampleFs sampleRepositories Hrun)).
Defined.

Lemma expectedProbes_no_read fs root dirs :
  existsb isReadFileSync (flat_map (expectedProbes fs root) dirs) = false.
Proof.
  induction dirs as [ | e dirs IH ]; [ reflexivity | ].
  cbn [flat_map]. rewrite existsb_app, IH, orb_false_r.
  unfold expectedProbes.
  destruct (fs_existsSync fs (rootManifest _ _)), (isProject fs _ _);
    reflexivity.
Qed.

(** C6: for a project directory D the record returned carries
    indexed = the existence of <root>/dbt-index/D/manifest.md, whichever
    of the two places the manifest was found at (dbtProjectPath tells
    which); the scan makes no readFileSync call, so the artifact is never
    read; and the artifact is looked for only after a manifest was found
    for D. *)
Theorem C6_indexed_by_artifact env fs entries :
  let root := NAO_DEFAULT_PROJECT_PATH env in
  let reposPath := Path.join [asString root; "repos"] in
  falsy root = false ->
  fs_existsSync fs reposPath = true ->
  fs_readdirSync fs reposPath = inr entries ->
  (forall e,
      In e entries ->
      Dirent.isDirectory e = true ->
      isProject fs reposPath (Dirent.name e) = true ->
      exists rs r,
        result (getRepositories env) fs = Returned (Some rs)
        /\ In r rs
        /\ name r = Dirent.name e
        /\ hasDbtProject r = true
        /\ dbtProjectPath r
           = Some (if fs_existsSync fs (rootManifest reposPath (Dirent.name e))
                   then ("repos/" ++ Dirent.name e)%string
                   else ("repos/" ++ Dirent.name e ++ "/dbt")%string)
        /\ indexed r
           = Some (fs_existsSync fs
                     (indexArtifact (asString root) (Dirent.name e))))
  /\ (forall rs r,
        result (getRepositories env) fs = Returned (Some rs) ->
        In r rs ->
        hasDbtProject r = true ->
        indexed r
        = Some (fs_existsSync fs (indexArtifact (asString root) (name r))))
  /\ calls (getRepositories env) fs
     = ExistsSync reposPath :: ReaddirSync reposPath
       :: flat_map (expectedProbes fs (asString root))
                   (filter Dirent.isDirectory entries)
  /\ existsb isReadFileSync (calls (getRepositories env) fs) = false.
Proof.
  cbv zeta. intros Hroot Hexists Hdir.
  pose proof (falsy_false_not_empty _ Hroot) as Hne.
  assert (Hcalls :
            calls (getRepositories env) fs
            = ExistsSync (Path.join [asString (NAO_DEFAULT_PROJECT_PATH env); "repos"])
              :: ReaddirSync (Path.join [asString (NAO_DEFAULT_PROJECT_PATH env); "repos"])
              :: flat_map (expectedProbes fs (asString (NAO_DEFAULT_PROJECT_PATH env)))
                          (filter Dirent.isDirectory entries)).
  { unfold calls. rewrite getRepositories_run. cbv zeta.
    rewrite Hroot, Hexists, Hdir. cbn [snd]. do 2 f_equal.
    apply flat_map_ext. intros e. now apply probesOf_expected. }
  split; [ | split; [ | split; [ exact Hcalls | ] ] ].
  - intros e Hin Hd Hproject.
    assert (Hdirs : In e (filter Dirent.isDirectory entries))
      by (apply filter_In; now split).
    exists (map (repositoryOf fs (Path.join [asString (NAO_DEFAULT_PROJECT_PATH env); "repos"]))
                (filter Dirent.isDirectory entries)).
    exists (repositoryOf fs (Path.join [asString (NAO_DEFAULT_PROJECT_PATH env); "repos"]) e).
    split; [ | split; [ now apply in_map | ] ].
    + unfold result. rewrite getRepositories_run. cbv zeta.
      rewrite Hroot, Hexists, Hdir. cbn [fst].
      destruct (filter Dirent.isDirectory entries); [ contradiction | reflexivity ].
    + pose proof (repositoryOf_indexed fs e Hne) as Hidx. cbv zeta in Hidx.
      rewrite Hidx, repositoryOf_name. clear Hidx.
      unfold isProject in Hproject. unfold repositoryOf.
      destruct (fs_existsSync fs (rootManifest _ _)).
      * cbn [name hasDbtProject dbtProjectPath andb]. now repeat split.
      * cbn [orb] in Hproject. rewrite Hproject.
        cbn [name hasDbtProject dbtProjectPath andb]. now repeat split.
  - intros rs r Hrun Hin Hproject.
    destruct (getRepositories_some _ _ Hrun) as (entries' & _ & _ & _ & -> & _).
    apply in_map_iff in Hin. destruct Hin as (e & <- & _).
    rewrite repositoryOf_indexed by exact Hne.
    now rewrite Hproject.
  - rewrite Hcalls. cbn [existsb isReadFileSync orb].
    apply expectedProbes_no_read.
Qed.

Lemma C6_indexed_by_artifact_witness :
  (falsy (NAO_DEFAULT_PROJECT_PATH sampleEnv) = false
   /\ fs_existsSync sampleFs "/srv/nao/repos" = true
   /\ fs_readdirSync sampleFs "/srv/nao/repos"
      = inr [dir "shop"; file "README.md"; dir "warehouse"; dir "notes"]
   /\ In (dir "warehouse")
         [dir "shop"; file "README.md"; dir "warehouse"; dir "notes"]
   /\ isProject sampleFs "/srv/nao/repos" "warehouse" = true)
  /\ (exists rs r,
        result (getRepositories sampleEnv) sampleFs = Returned (Some rs)
        /\ In r rs
        /\ name r = "warehouse"
        /\ hasDbtProject r = true
        /\ dbtProjectPath r = Some "repos/warehouse/dbt"
        /\ indexed r = Some true)
  /\ (exists rs r,
        result (getRepositories sampleEnv) sampleFs = Returned (Some rs)
        /\ In r rs
        /\ name r = "shop"
        /\ hasDbtProject r = true
        /\ dbtProjectPath r = Some "repos/shop"
        /\ indexed r = Some false)
  /\ calls (getRepositories sampleEnv) sampleFs
     = [ ExistsSync "/srv/nao/repos"; ReaddirSync "/srv/nao/repos";
         ExistsSync "/srv/nao/repos/shop/dbt_project.yml";
         ExistsSync "/srv/nao/dbt-index/shop/manifest.md";
         ExistsSync "/srv/nao/repos/warehouse/dbt_project.yml";
         ExistsSync "/srv/nao/repos/warehouse/dbt/dbt_project.yml";
         ExistsSync "/srv/nao/dbt-index/warehouse/manifest.md";
         ExistsSync "/srv/nao/repos/notes/dbt_project.yml";
         ExistsSync "/srv/nao/repos/notes/dbt/dbt_project.yml" ].
Proof.
  assert (Hwarehouse :
            In (dir "warehouse")
               [dir "shop"; file "README.md"; dir "warehouse"; dir "notes"])
    by (right; right; left; reflexivity).
  assert (Hshop :
            In (dir "shop")
               [dir "shop"; file "README.md"; dir "warehouse"; dir "notes"])
    by (left; reflexivity).
  pose proof (@C6_indexed_by_artifact sampleEnv sampleFs
                [dir "shop"; file "README.md"; dir "warehouse"; dir "notes"]
                eq_refl eq_refl eq_refl) as (Hrecords & _ & Hcalls & _).
  split.
  { split; [ reflexivity | ]. split; [ reflexivity | ]. split; [ reflexivity | ].
    split; [ exact Hwarehouse | reflexivity ]. }
  split; [ exact (Hrecords (dir "warehouse") Hwarehouse eq_refl eq_refl) | ].
  split; [ exact (Hrecords (dir "shop") Hshop eq_refl eq_refl) | ].
  exact Hcalls.
Defined.

Lemma declaredConnections_In fs databasesPath entries c :
  In c (declaredConnections fs databasesPath entries)
  <-> exists e d,
        In e entries
        /\ In d (listing fs (Path.join [databasesPath; Dirent.name e]))
        /\ keyValue "type=" e = Some (type c)
        /\ keyValue "database=" d = Some (database c).
Proof.
  unfold declaredConnections. rewrite in_flat_map. split.
  - intros (e & He & Hc). unfold connectionsUnder in Hc.
    destruct (keyValue "type=" e) as [ T | ] eqn:HT; [ | contradiction ].
    apply in_flat_map in Hc. destruct Hc as (d & Hd & Hc).
    unfold connectionOf in Hc.
    destruct (keyValue "database=" d) as [ D | ] eqn:HD; [ | contradiction ].
    destruct Hc as [ <- | [] ]. now exists e, d.
  - intros (e & d & He & Hd & HT & HD). exists e. split; [ exact He | ].
    unfold connectionsUnder. rewrite HT. apply in_flat_map.
    exists d. split; [ exact Hd | ].
    unfold connectionOf. rewrite HD. left. now destruct c.
Qed.

(** C7, refuted as stated: on [halfReadableFs] the directories
    databases/type=postgres/database=sales are there, both values not
    empty, and getConnections returns null, because the directory
    type=mysql listed after type=postgres cannot be enumerated. *)
Lemma C7_every_pair_returned_counterexample :
  ~ (forall env fs entries e d T D,
        let databasesPath :=
          Path.join [asString (NAO_DEFAULT_PROJECT_PATH env); "databases"] in
        falsy (NAO_DEFAULT_PROJECT_PATH env) = false ->
        fs_existsSync fs databasesPath = true ->
        fs_readdirSync fs databasesPath = inr entries ->
        In e entries ->
        fs_readdirSync fs (Path.join [databasesPath; Dirent.name e])
        = inr [d] ->
        Dirent.isDirectory e = true ->
        Dirent.name e = ("type=" ++ T)%string -> T <> "" ->
        Dirent.isDirectory d = true ->
        Dirent.name d = ("database=" ++ D)%string -> D <> "" ->
        exists cs,
          result (getConnections env) fs = Returned (Some cs)
          /\ In {| type := T; database := D |} cs).
Proof.
  intros claim.
  assert (Hin : In (dir "type=postgres") [dir "type=postgres"; dir "type=mysql"])
    by (left; reflexivity).
  assert (HT : "postgres" <> "") by discriminate.
  assert (HD : "sales" <> "") by discriminate.
  destruct (claim sampleEnv halfReadableFs
              [dir "type=postgres"; dir "type=mysql"]
              (dir "type=postgres") (dir "database=sales")
              "postgres" "sales"
              eq_refl eq_refl eq_refl Hin eq_refl eq_refl eq_refl HT
              eq_refl eq_refl HD)
    as (cs & Hrun & _).
  vm_compute in Hrun. discriminate Hrun.
Qed.

(** C7, amended: when every directory type=T (T not empty) listed in
    databases/ can be enumerated, getConnections returns, in nested
    enumeration order and without removing duplicates, exactly one
    connection (T, D) for every directory database=D of every directory
    type=T, T and D not empty, and nothing else, and null when there is
    no such pair; when one of these type directories cannot be
    enumerated it returns null.  A value is read off a directory entry
    only if its name is the key followed by a non-empty remainder. *)
Theorem C7_declared_connections env fs entries :
  let root := NAO_DEFAULT_PROJECT_PATH env in
  let databasesPath := Path.join [asString root; "databases"] in
  falsy root = false ->
  fs_existsSync fs databasesPath = true ->
  fs_readdirSync fs databasesPath = inr entries ->
  (allReadable fs databasesPath entries = true ->
   (declaredConnections fs databasesPath entries = [] ->
    result (getConnections env) fs = Returned None)
   /\ (declaredConnections fs databasesPath entries <> [] ->
       result (getConnections env) fs
       = Returned (Some (declaredConnections fs databasesPath entries))))
  /\ (allReadable fs databasesPath entries = false ->
      result (getConnections env) fs = Returned None)
  /\ (forall c,
        In c (declaredConnections fs databasesPath entries)
        <-> exists e d,
              In e entries
              /\ In d (listing fs (Path.join [databasesPath; Dirent.name e]))
              /\ (Dirent.isDirectory e = true
                  /\ Dirent.name e = ("type=" ++ type c)%string
                  /\ type c <> "")
              /\ (Dirent.isDirectory d = true
                  /\ Dirent.name d = ("database=" ++ database c)%string
                  /\ database c <> ""))
  /\ (forall l1 l2,
        declaredConnections fs databasesPath (l1 ++ l2)
        = declaredConnections fs databasesPath l1
          ++ declaredConnections fs databasesPath l2)
  /\ (forall key entry value,
        keyValue key entry = Some value
        <-> Dirent.isDirectory entry = true
            /\ Dirent.name entry = (key ++ value)%string
            /\ value <> "").
Proof.
  cbv zeta. intros Hroot Hexists Hdir.
  split; [ | split; [ | split; [ | split ] ] ].
  - intros Hall. rewrite getConnections_run. cbv zeta.
    rewrite Hroot, Hexists, Hdir, Hall. split.
    + intros ->. reflexivity.
    + intros Hne.
      destruct (declaredConnections fs _ entries); [ contradiction | reflexivity ].
  - intros Hall. rewrite getConnections_run. cbv zeta.
    now rewrite Hroot, Hexists, Hdir, Hall.
  - intros c. rewrite declaredConnections_In.
    split; intros (e & d & He & Hd & HT & HD); exists e, d;
      (split; [ exact He | split; [ exact Hd | split ] ]);
      now apply keyValue_spec.
  - intros l1 l2. unfold declaredConnections. apply flat_map_app.
  - apply keyValue_spec.
Qed.

Lemma C7_declared_connections_witness :
  falsy (NAO_DEFAULT_PROJECT_PATH sampleEnv) = false
  /\ fs_existsSync sampleFs "/srv/nao/databases" = true
  /\ fs_readdirSync sampleFs "/srv/nao/databases"
     = inr [dir "type=postgres"; dir "type="; file "type=csv"; dir "cache";
            dir "type=bigquery"]
  /\ allReadable sampleFs "/srv/nao/databases"
       [dir "type=postgres"; dir "type="; file "type=csv"; dir "cache";
        dir "type=bigquery"] = true
  /\ sampleConnections <> []
  /\ result (getConnections sampleEnv) sampleFs
     = Returned (Some sampleConnections).
Proof.
  assert (Hne : sampleConnections <> []) by discriminate.
  split; [ reflexivity | ]. split; [ reflexivity | ]. split; [ reflexivity | ].
  split; [ reflexivity | ]. split; [ exact Hne | ].
  exact (proj2 (proj1 (@C7_declared_connections sampleEnv sampleFs
                         [dir "type=postgres"; dir "type="; file "type=csv";
                          dir "cache"; dir "type=bigquery"]
                         eq_refl eq_refl eq_refl)
                      eq_refl)
               Hne).
Defined.

(* ================================================================= *)
(** * Further properties of the three functions *)

(** A list comes back from [getConnections] only after a complete scan. *)
Lemma getConnections_some env fs cs :
  result (getConnections env) fs = Returned (Some cs) ->
  let databasesPath :=
    Path.join [asString (NAO_DEFAULT_PROJECT_PATH env); "databases"] in
  exists entries,
    falsy (NAO_DEFAULT_PROJECT_PATH env) = false
    /\ fs_existsSync fs databasesPath = true
    /\ fs_readdirSync fs databasesPath = inr entries
    /\ allReadable fs databasesPath entries = true
    /\ cs = declaredConnections fs databasesPath entries
    /\ cs <> [].
Proof.
  rewrite getConnections_run. cbv zeta.
  destruct (falsy (NAO_DEFAULT_PROJECT_PATH env)); [ discriminate | ].
  destruct (fs_existsSync fs _); [ | discriminate ].
  destruct (fs_readdirSync fs _) as [ e | entries ]; [ discriminate | ].
  destruct (allReadable fs _ entries) eqn:Hall; [ | discriminate ].
  intros H. inversion H as [ Hcs ].
  apply nonEmptyOrNull_some in Hcs. destruct Hcs as [ -> Hne ].
  exists entries. now repeat split.
Qed.

(** X1: with a configured root, a missing RULES.md, repos/ or databases/
    ends the call at once: null is returned after the single existence
    test, nothing is enumerated or read and nothing is logged. *)
Theorem X1_absent_target env fs :
  let root := NAO_DEFAULT_PROJECT_PATH env in
  let rulesPath := Path.join [asString root; "RULES.md"] in
  let reposPath := Path.join [asString root; "repos"] in
  let databasesPath := Path.join [asString root; "databases"] in
  falsy root = false ->
  (fs_existsSync fs rulesPath = false ->
   getUserRules env fs = (Returned None, [ExistsSync rulesPath]))
  /\ (fs_existsSync fs reposPath = false ->
      getRepositories env fs = (Returned None, [ExistsSync reposPath]))
  /\ (fs_existsSync fs databasesPath = false ->
      getConnections env fs = (Returned None, [ExistsSync databasesPath])).
Proof.
  cbv zeta. intros Hroot. split; [ | split ]; intros Habsent.
  - rewrite getUserRules_run. cbv zeta. now rewrite Hroot, Habsent.
  - rewrite getRepositories_run. cbv zeta. now rewrite Hroot, Habsent.
  - unfold getConnections. rewrite Hroot. cbv zeta.
    unfold bind at 1, existsSync at 1. now rewrite Habsent.
Qed.

Lemma X1_absent_target_witness :
  falsy (NAO_DEFAULT_PROJECT_PATH sampleEnv) = false
  /\ fs_existsSync halfReadableFs "/srv/nao/repos" = false
  /\ getRepositories sampleEnv halfReadableFs
     = (Returned None, [ExistsSync "/srv/nao/repos"]).
Proof.
  split; [ reflexivity | ]. split; [ reflexivity | ].
  apply (proj1 (proj2 (@X1_absent_target sampleEnv halfReadableFs eq_refl))).
  reflexivity.
Defined.

(** X2: every record getRepositories returns is well formed: indexed is
    present; dbtProjectPath is set exactly when hasDbtProject is true and
    then is "repos/<name>" or "repos/<name>/dbt"; and indexed is true only
    for a project whose index artifact exists, so an index artifact
    without a manifest is ignored. *)
Theorem X2_repository_well_formed env fs rs r :
  result (getRepositories env) fs = Returned (Some rs) ->
  In r rs ->
  (exists b, indexed r = Some b)
  /\ (hasDbtProject r = true <-> dbtProjectPath r <> None)
  /\ (forall p, dbtProjectPath r = Some p ->
                p = ("repos/" ++ name r)%string
                \/ p = ("repos/" ++ name r ++ "/dbt")%string)
  /\ (indexed r = Some true ->
      hasDbtProject r = true
      /\ fs_existsSync fs
           (indexArtifact (asString (NAO_DEFAULT_PROJECT_PATH env)) (name r))
         = true).
Proof.
  intros Hrun Hin.
  destruct (getRepositories_some _ _ Hrun) as (entries & Hroot & _ & _ & -> & _).
  apply in_map_iff in Hin. destruct Hin as (e & <- & _).
  pose proof (repositoryOf_indexed fs e (falsy_false_not_empty _ Hroot)) as Hidx.
  cbv zeta in Hidx. rewrite Hidx. clear Hidx.
  rewrite repositoryOf_name. unfold repositoryOf.
  destruct (fs_existsSync fs (rootManifest _ _)).
  - cbn [hasDbtProject dbtProjectPath name andb].
    split; [ now eexists | ]. split; [ now split | ].
    split; [ intros p H; inversion H; now left | ].
    intros H. inversion H as [ Hex ]. now rewrite Hex.
  - destruct (fs_existsSync fs (nestedManifest _ _)).
    + cbn [hasDbtProject dbtProjectPath name andb].
      split; [ now eexists | ]. split; [ now split | ].
      split; [ intros p H; inversion H; now right | ].
      intros H. inversion H as [ Hex ]. now rewrite Hex.
    + cbn [hasDbtProject dbtProjectPath name andb].
      split; [ now eexists | ].
      split; [ split; [ discriminate | congruence ] | ].
      split; discriminate.
Qed.

Lemma X2_repository_well_formed_witness :
  result (getRepositories sampleEnv) sampleFs = Returned (Some sampleRepositories)
  /\ In notesRepository sampleRepositories
  /\ (hasDbtProject notesRepository = true
      <-> dbtProjectPath notesRepository <> None).
Proof.
  assert (Hrun : result (getRepositories sampleEnv) sampleFs
                 = Returned (Some sampleRepositories))
    by (vm_compute; reflexivity).
  assert (Hin : In notesRepository sampleRepositories)
    by (right; right; left; reflexivity).
  split; [ exact Hrun | ]. split; [ exact Hin | ].
  exact (proj1 (proj2 (@X2_repository_well_formed sampleEnv sampleFs
                         sampleRepositories notesRepository Hrun Hin))).
Defined.

(** X3: no connection getConnections returns has an empty type or an
    empty database. *)
Theorem X3_connection_fields_not_empty env fs cs c :
  result (getConnections env) fs = Returned (Some cs) ->
  In c cs ->
  type c <> "" /\ database c <> "".
Proof.
  intros Hrun Hin.
  destruct (getConnections_some _ _ Hrun) as (entries & _ & _ & _ & _ & -> & _).
  apply declaredConnections_In in Hin.
  destruct Hin as (e & d & _ & _ & HT & HD).
  apply keyValue_spec in HT. apply keyValue_spec in HD.
  split; [ apply HT | apply HD ].
Qed.

Lemma X3_connection_fields_not_empty_witness :
  result (getConnections sampleEnv) sampleFs = Returned (Some sampleConnections)
  /\ In {| type := "bigquery"; database := "sales" |} sampleConnections
  /\ "bigquery" <> "" /\ "sales" <> "".
Proof.
  assert (Hrun : result (getConnections sampleEnv) sampleFs
                 = Returned (Some sampleConnections))
    by (vm_compute; reflexivity).
  assert (Hin : In {| type := "bigquery"; database := "sales" |}
                   sampleConnections)
    by (right; right; left; reflexivity).
  split; [ exact Hrun | ]. split; [ exact Hin | ].
  exact (@X3_connection_fields_not_empty sampleEnv sampleFs sampleConnections
           {| type := "bigquery"; database := "sales" |} Hrun Hin).
Defined.

(** ** The loop, piece by piece *)

Lemma forOf_app {A S} (body : A -> S -> Js S) fs (l1 l2 : list A) :
  forall acc acc1 t1,
    forOf l1 body acc fs = (Returned acc1, t1) ->
    forOf (l1 ++ l2) body acc fs
    = (fst (forOf l2 body acc1 fs), t1 ++ snd (forOf l2 body acc1 fs)).
Proof.
  induction l1 as [ | x l1 IH ]; intros acc acc1 t1 Hrun.
  - cbn in Hrun. inversion Hrun; subst. cbn [app].
    now destruct (forOf l2 body acc1 fs).
  - cbn [app forOf] in Hrun |- *. unfold bind in Hrun |- *.
    destruct (body x acc fs) as [ [ a | e ] t ]; [ | discriminate ].
    destruct (forOf l1 body a fs) as [ out t' ] eqn:Hrest.
    inversion Hrun; subst.
    rewrite (IH a acc1 t' Hrest). cbn [fst snd].
    now rewrite app_assoc.
Qed.

Lemma typeListings_app databasesPath l1 l2 :
  typeListings databasesPath (l1 ++ l2)
  = typeListings databasesPath l1 ++ typeListings databasesPath l2.
Proof.
  unfold typeListings, typeDirectories. now rewrite filter_app, map_app.
Qed.

Lemma typeListings_only_readdir databasesPath entries :
  filter isReaddirSync (typeListings databasesPath entries)
  = typeListings databasesPath entries
  /\ filter isConsoleError (typeListings databasesPath entries) = [].
Proof.
  unfold typeListings.
  induction (typeDirectories entries) as [ | e dirs [ IH1 IH2 ] ];
    [ now split | ].
  cbn [map filter isReaddirSync isConsoleError]. now rewrite IH1, IH2.
Qed.

(** The whole run of [getConnections] when every type directory can be
    enumerated. *)
Lemma getConnections_run_readable env fs entries :
  let root := NAO_DEFAULT_PROJECT_PATH env in
  let databasesPath := Path.join [asString root; "databases"] in
  falsy root = false ->
  fs_existsSync fs databasesPath = true ->
  fs_readdirSync fs databasesPath = inr entries ->
  allReadable fs databasesPath entries = true ->
  getConnections env fs
  = (Returned (nonEmptyOrNull (declaredConnections fs databasesPath entries)),
     ExistsSync databasesPath :: ReaddirSync databasesPath
     :: typeListings databasesPath entries).
Proof.
  cbv zeta. intros Hroot Hexists Hdir Hall.
  unfold getConnections. rewrite Hroot. cbv zeta.
  unfold bind at 1, existsSync at 1. rewrite Hexists. cbn [negb].
  erewrite run_tryCatch_returned; [ reflexivity | ].
  unfold bind at 1, readdirSync at 1. rewrite Hdir. cbn [ofResult].
  unfold bind. rewrite forOf_scanType_readable by exact Hall.
  unfold ret. cbn [app]. now rewrite app_nil_r.
Qed.

(** The whole run when the listing of [databases/] reaches a type
    directory that cannot be enumerated. *)
Lemma getConnections_run_unreadable env fs before e after T err :
  let root := NAO_DEFAULT_PROJECT_PATH env in
  let databasesPath := Path.join [asString root; "databases"] in
  falsy root = false ->
  fs_existsSync fs databasesPath = true ->
  fs_readdirSync fs databasesPath = inr (before ++ e :: after) ->
  allReadable fs databasesPath before = true ->
  keyValue "type=" e = Some T ->
  fs_readdirSync fs (Path.join [databasesPath; Dirent.name e]) = inl err ->
  getConnections env fs
  = (Returned None,
     ExistsSync databasesPath :: ReaddirSync databasesPath
     :: typeListings databasesPath before
     ++ [ReaddirSync (Path.join [databasesPath; Dirent.name e]);
         ConsoleError "Error reading databases folder:" err]).
Proof.
  cbv zeta. intros Hroot Hexists Hdir Hall HT Herr.
  unfold getConnections. rewrite Hroot. cbv zeta.
  set (databasesPath := Path.join _) in *.
  unfold bind at 1, existsSync at 1. rewrite Hexists. cbn [negb].
  rewrite run_tryCatch_thrown
    with (e := err)
         (t := ReaddirSync databasesPath
               :: typeListings databasesPath before
               ++ [ReaddirSync (Path.join [databasesPath; Dirent.name e])]).
  - unfold bind, console_error, ret. cbn [fst snd app].
    now rewrite <- app_assoc.
  - unfold bind at 1, readdirSync at 1. rewrite Hdir. cbn [ofResult].
    unfold bind.
    rewrite (forOf_app _ _ _ (e :: after) _
               (forOf_scanType_readable fs databasesPath before [] Hall)).
    cbn [forOf]. unfold bind. rewrite scanType_run, HT. cbv zeta.
    rewrite Herr. reflexivity.
Qed.

(** Where a scan of [databases/] that fails fails first. *)
Lemma first_unreadable fs databasesPath entries :
  allReadable fs databasesPath entries = false ->
  exists before e after T err,
    entries = before ++ e :: after
    /\ allReadable fs databasesPath before = true
    /\ keyValue "type=" e = Some T
    /\ fs_readdirSync fs (Path.join [databasesPath; Dirent.name e]) = inl err.
Proof.
  unfold allReadable, typeDirectories.
  induction entries as [ | e entries IH ]; cbn [filter]; [ discriminate | ].
  destruct (keyValue "type=" e) as [ T | ] eqn:HT.
  - cbn [forallb]. unfold readable at 1.
    destruct (fs_readdirSync fs (Path.join [databasesPath; Dirent.name e]))
      as [ err | ds ] eqn:Hdir.
    + intros _. now exists [], e, entries, T, err.
    + cbn [andb]. intros Hrest.
      destruct (IH Hrest) as (before & e' & after & T' & err & -> & Hb & HT' & He').
      exists (e :: before), e', after, T', err.
      split; [ reflexivity | ]. split; [ | now split ].
      cbn [filter]. rewrite HT. cbn [forallb]. unfold readable at 1.
      now rewrite Hdir.
  - intros Hrest.
    destruct (IH Hrest) as (before & e' & after & T' & err & -> & Hb & HT' & He').
    exists (e :: before), e', after, T', err.
    split; [ reflexivity | ]. split; [ | now split ].
    cbn [filter]. now rewrite HT.
Qed.

(** X4: a successful getConnections makes exactly these calls: the
    existence test and the enumeration of databases/, then one
    enumeration per directory entry named type=T with T not empty, in
    listing order.  No other entry is opened (not a bare type=, not a
    file named type=x, not a directory with another name), no existence
    test is made below databases/ and no file is read. *)
Theorem X4_connections_calls env fs entries :
  let root := NAO_DEFAULT_PROJECT_PATH env in
  let databasesPath := Path.join [asString root; "databases"] in
  falsy root = false ->
  fs_existsSync fs databasesPath = true ->
  fs_readdirSync fs databasesPath = inr entries ->
  allReadable fs databasesPath entries = true ->
  calls (getConnections env) fs
  = ExistsSync databasesPath :: ReaddirSync databasesPath
    :: map (fun e => ReaddirSync (Path.join [databasesPath; Dirent.name e]))
           (filter (fun e => match keyValue "type=" e with
                             | Some _ => true
                             | None => false
                             end)
                   entries).
Proof.
  cbv zeta. intros Hroot Hexists Hdir Hall. unfold calls.
  now rewrite (getConnections_run_readable env fs Hroot Hexists Hdir Hall).
Qed.

Lemma X4_connections_calls_witness :
  falsy (NAO_DEFAULT_PROJECT_PATH sampleEnv) = false
  /\ fs_existsSync sampleFs "/srv/nao/databases" = true
  /\ fs_readdirSync sampleFs "/srv/nao/databases"
     = inr [dir "type=postgres"; dir "type="; file "type=csv"; dir "cache";
            dir "type=bigquery"]
  /\ allReadable sampleFs "/srv/nao/databases"
       [dir "type=postgres"; dir "type="; file "type=csv"; dir "cache";
        dir "type=bigquery"] = true
  /\ calls (getConnections sampleEnv) sampleFs
     = [ ExistsSync "/srv/nao/databases"; ReaddirSync "/srv/nao/databases";
         ReaddirSync "/srv/nao/databases/type=postgres";
         ReaddirSync "/srv/nao/databases/type=bigquery" ].
Proof.
  split; [ reflexivity | ]. split; [ reflexivity | ]. split; [ reflexivity | ].
  split; [ reflexivity | ].
  exact (@X4_connections_calls sampleEnv sampleFs
           [dir "type=postgres"; dir "type="; file "type=csv"; dir "cache";
            dir "type=bigquery"]
           eq_refl eq_refl eq_refl eq_refl).
Defined.

(** X5: getConnections stops at the first type=T directory that cannot
    be enumerated: it returns null, the entries listed after that
    directory are never opened, and the one diagnostic logged carries the
    exception of that directory. *)
Theorem X5_connections_fail_stop env fs before e after T err :
  let root := NAO_DEFAULT_PROJECT_PATH env in
  let databasesPath := Path.join [asString root; "databases"] in
  falsy root = false ->
  fs_existsSync fs databasesPath = true ->
  fs_readdirSync fs databasesPath = inr (before ++ e :: after) ->
  allReadable fs databasesPath before = true ->
  keyValue "type=" e = Some T ->
  fs_readdirSync fs (Path.join [databasesPath; Dirent.name e]) = inl err ->
  getConnections env fs
  = (Returned None,
     ExistsSync databasesPath :: ReaddirSync databasesPath
     :: typeListings databasesPath before
     ++ [ReaddirSync (Path.join [databasesPath; Dirent.name e]);
         ConsoleError "Error reading databases folder:" err]).
Proof.
  cbv zeta. intros Hroot Hexists Hdir Hall HT Herr.
  exact (getConnections_run_unreadable env fs before e after
           Hroot Hexists Hdir Hall HT Herr).
Qed.

Lemma X5_connections_fail_stop_witness :
  fs_readdirSync brokenMiddleFs "/srv/nao/databases"
  = inr ([dir "type=postgres"] ++ dir "type=mysql" :: [dir "type=bigquery"])
  /\ allReadable brokenMiddleFs "/srv/nao/databases" [dir "type=postgres"] = true
  /\ keyValue "type=" (dir "type=mysql") = Some "mysql"
  /\ getConnections sampleEnv brokenMiddleFs
     = (Returned None,
        [ ExistsSync "/srv/nao/databases"; ReaddirSync "/srv/nao/databases";
          ReaddirSync "/srv/nao/databases/type=postgres";
          ReaddirSync "/srv/nao/databases/type=mysql";
          ConsoleError "Error reading databases folder:"
            "ENOENT: no such file or directory, scandir /srv/nao/databases/type=mysql" ]).
Proof.
  split; [ reflexivity | ]. split; [ reflexivity | ]. split; [ reflexivity | ].
  exact (@X5_connections_fail_stop sampleEnv brokenMiddleFs
           [dir "type=postgres"] (dir "type=mysql") [dir "type=bigquery"]
           "mysql"
           "ENOENT: no such file or directory, scandir /srv/nao/databases/type=mysql"
           eq_refl eq_refl eq_refl eq_refl eq_refl eq_refl).
Defined.

(** ** What is logged *)

Lemma existsb_filter {A} (P : A -> bool) l :
  existsb P l = true <-> filter P l <> [].
Proof.
  induction l as [ | x l IH ]; cbn [existsb filter].
  - split; [ discriminate | contradiction ].
  - destruct (P x); cbn [orb]; [ | exact IH ].
    split; [ discriminate | reflexivity ].
Qed.

(** From "either the condition holds and one diagnostic is logged, or it
    does not and none is" to the two ways of saying it. *)
Lemma logged_cases (condition : Prop) (l : list Call) :
  (condition /\ exists c, filter isConsoleError l = [c])
  \/ (~ condition /\ filter isConsoleError l = []) ->
  (existsb isConsoleError l = true <-> condition)
  /\ List.length (filter isConsoleError l) <= 1.
Proof.
  rewrite existsb_filter.
  intros [ (Hc & c & ->) | (Hc & ->) ]; cbn [List.length].
  - split; [ split; [ easy | discriminate ] | lia ].
  - split; [ split; [ congruence | contradiction ] | lia ].
Qed.

Lemma probes_not_logged fs reposPath dirs :
  filter isConsoleError (flat_map (probesOf fs reposPath) dirs) = [].
Proof.
  induction dirs as [ | d dirs IH ]; [ reflexivity | ].
  cbn [flat_map]. rewrite filter_app, IH, app_nil_r.
  unfold probesOf.
  destruct (fs_existsSync fs (rootManifest _ _)), (isProject fs _ _);
    reflexivity.
Qed.

Lemma getUserRules_logged env fs :
  let root := NAO_DEFAULT_PROJECT_PATH env in
  let rulesPath := Path.join [asString root; "RULES.md"] in
  let caught :=
    falsy root = false
    /\ fs_existsSync fs rulesPath = true
    /\ exists e, fs_readFileSync fs rulesPath = inl e in
  (caught /\ exists c, filter isConsoleError (calls (getUserRules env) fs) = [c])
  \/ (~ caught /\ filter isConsoleError (calls (getUserRules env) fs) = []).
Proof.
  cbv zeta. unfold calls. rewrite getUserRules_run. cbv zeta.
  destruct (falsy _); [ right; split; [ intros (H & _); discriminate | reflexivity ] | ].
  destruct (fs_existsSync fs _);
    [ | right; split; [ intros (_ & H & _); discriminate | reflexivity ] ].
  destruct (fs_readFileSync fs _) as [ e | text ].
  - left. split; [ now repeat split; eexists | now eexists ].
  - right. split; [ intros (_ & _ & e & H); discriminate | reflexivity ].
Qed.

Lemma getRepositories_logged env fs :
  let root := NAO_DEFAULT_PROJECT_PATH env in
  let reposPath := Path.join [asString root; "repos"] in
  let caught :=
    falsy root = false
    /\ fs_existsSync fs reposPath = true
    /\ exists e, fs_readdirSync fs reposPath = inl e in
  (caught /\ exists c, filter isConsoleError (calls (getRepositories env) fs) = [c])
  \/ (~ caught /\ filter isConsoleError (calls (getRepositories env) fs) = []).
Proof.
  cbv zeta. unfold calls. rewrite getRepositories_run. cbv zeta.
  destruct (falsy _); [ right; split; [ intros (H & _); discriminate | reflexivity ] | ].
  destruct (fs_existsSync fs _);
    [ | right; split; [ intros (_ & H & _); discriminate | reflexivity ] ].
  destruct (fs_readdirSync fs _) as [ e | entries ].
  - left. split; [ now repeat split; eexists | now eexists ].
  - right. split; [ intros (_ & _ & e & H); discriminate | ].
    cbn [snd filter isConsoleError]. apply probes_not_logged.
Qed.

Lemma getConnections_logged env fs :
  let root := NAO_DEFAULT_PROJECT_PATH env in
  let databasesPath := Path.join [asString root; "databases"] in
  let caught :=
    falsy root = false
    /\ fs_existsSync fs databasesPath = true
    /\ ((exists e, fs_readdirSync fs databasesPath = inl e)
        \/ exists entries,
             fs_readdirSync fs databasesPath = inr entries
             /\ allReadable fs databasesPath entries = false) in
  (caught /\ exists c, filter isConsoleError (calls (getConnections env) fs) = [c])
  \/ (~ caught /\ filter isConsoleError (calls (getConnections env) fs) = []).
Proof.
  cbv zeta. set (databasesPath := Path.join _).
  destruct (falsy (NAO_DEFAULT_PROJECT_PATH env)) eqn:Hroot.
  { right. split; [ intros (H & _); discriminate | ].
    unfold calls, getConnections. now rewrite Hroot. }
  destruct (fs_existsSync fs databasesPath) eqn:Hex.
  2:{ right. split; [ intros (_ & H & _); discriminate | ].
      unfold calls, getConnections. rewrite Hroot. cbv zeta.
      fold databasesPath. unfold bind at 1, existsSync at 1. now rewrite Hex. }
  destruct (fs_readdirSync fs databasesPath) as [ e | entries ] eqn:Hdir.
  { left. split; [ split; [ reflexivity | split; [ reflexivity | left; now exists e ] ] | ].
    unfold calls, getConnections. rewrite Hroot. cbv zeta. fold databasesPath.
    unfold bind at 1, existsSync at 1. rewrite Hex. cbn [negb].
    rewrite run_tryCatch_thrown
      with (e := e) (t := [ReaddirSync databasesPath]).
    - now eexists.
    - unfold bind, readdirSync. now rewrite Hdir. }
  destruct (typeListings_only_readdir databasesPath entries) as [ _ Hquiet ].
  destruct (allReadable fs databasesPath entries) eqn:Hall.
  - right. split.
    + intros (_ & _ & [ (e & He) | (entries' & He & Hf) ]); congruence.
    + unfold calls.
      rewrite (getConnections_run_readable env fs Hroot Hex Hdir Hall).
      fold databasesPath. cbn [snd filter isConsoleError]. exact Hquiet.
  - left. split.
    + split; [ reflexivity | split; [ reflexivity | right; now exists entries ] ].
    + destruct (first_unreadable _ _ _ Hall)
        as (before & e & after & T & err & -> & Hb & HT & Herr).
      unfold calls.
      rewrite (getConnections_run_unreadable env fs before e after
                 Hroot Hex Hdir Hb HT Herr).
      fold databasesPath. cbn [snd filter isConsoleError]. rewrite filter_app.
      destruct (typeListings_only_readdir databasesPath before) as [ _ -> ].
      now eexists.
Qed.

(** X6: a diagnostic is logged exactly when an exception was caught:
    by getUserRules when RULES.md exists and reading it throws, by
    getRepositories when repos/ exists and enumerating it throws, by
    getConnections when databases/ exists and its enumeration or that of
    a type=T directory throws.  A null result for an unset root, a
    missing target or an empty scan logs nothing, and no call logs more
    than once. *)
Theorem X6_logged_iff_caught env fs :
  let root := NAO_DEFAULT_PROJECT_PATH env in
  let rulesPath := Path.join [asString root; "RULES.md"] in
  let reposPath := Path.join [asString root; "repos"] in
  let databasesPath := Path.join [asString root; "databases"] in
  ((existsb isConsoleError (calls (getUserRules env) fs) = true
    <-> falsy root = false
        /\ fs_existsSync fs rulesPath = true
        /\ exists e, fs_readFileSync fs rulesPath = inl e)
   /\ List.length (filter isConsoleError (calls (getUserRules env) fs)) <= 1)
  /\ ((existsb isConsoleError (calls (getRepositories env) fs) = true
       <-> falsy root = false
           /\ fs_existsSync fs reposPath = true
           /\ exists e, fs_readdirSync fs reposPath = inl e)
      /\ List.length (filter isConsoleError (calls (getRepositories env) fs)) <= 1)
  /\ ((existsb isConsoleError (calls (getConnections env) fs) = true
       <-> falsy root = false
           /\ fs_existsSync fs databasesPath = true
           /\ ((exists e, fs_readdirSync fs databasesPath = inl e)
               \/ exists entries,
                    fs_readdirSync fs databasesPath = inr entries
                    /\ allReadable fs databasesPath entries = false))
      /\ List.length (filter isConsoleError (calls (getConnections env) fs)) <= 1).
Proof.
  cbv zeta. split; [ | split ].
  - apply logged_cases, getUserRules_logged.
  - apply logged_cases, getRepositories_logged.
  - apply logged_cases, getConnections_logged.
Qed.

Lemma X6_logged_iff_caught_witness :
  (falsy (NAO_DEFAULT_PROJECT_PATH sampleEnv) = false
   /\ fs_existsSync lockedFs "/srv/nao/RULES.md" = true
   /\ exists e, fs_readFileSync lockedFs "/srv/nao/RULES.md" = inl e)
  /\ existsb isConsoleError (calls (getUserRules sampleEnv) lockedFs) = true.
Proof.
  assert (Hcaught :
            falsy (NAO_DEFAULT_PROJECT_PATH sampleEnv) = false
            /\ fs_existsSync lockedFs "/srv/nao/RULES.md" = true
            /\ exists e, fs_readFileSync lockedFs "/srv/nao/RULES.md" = inl e).
  { split; [ reflexivity | ]. split; [ reflexivity | ].
    exists "EACCES: permission denied, open /srv/nao/RULES.md". reflexivity. }
  split; [ exact Hcaught | ].
  exact (proj2 (proj1 (proj1 (X6_logged_iff_caught sampleEnv lockedFs))) Hcaught).
Defined.

(** ** Distinct names give distinct results *)

Lemma NoDup_map_filter {A B} (f : A -> B) (keep : A -> bool) l :
  NoDup (map f l) -> NoDup (map f (filter keep l)).
Proof.
  induction l as [ | x l IH ]; cbn [map filter]; intros Hnd; [ constructor | ].
  apply NoDup_cons_iff in Hnd. destruct Hnd as [ Hx Hl ].
  destruct (keep x); [ | now apply IH ].
  cbn [map]. constructor; [ | now apply IH ].
  intros Hin. apply Hx. apply in_map_iff in Hin.
  destruct Hin as (y & Hy & Hin). apply filter_In in Hin.
  apply in_map_iff. exists y. now split.
Qed.

(** X7: when the listing of repos/ names no entry twice, as a directory
    listing does, no two records getRepositories returns share a name. *)
Theorem X7_repository_names_distinct env fs entries rs :
  fs_readdirSync fs
    (Path.join [asString (NAO_DEFAULT_PROJECT_PATH env); "repos"]) = inr entries ->
  NoDup (map Dirent.name entries) ->
  result (getRepositories env) fs = Returned (Some rs) ->
  NoDup (map name rs).
Proof.
  intros Hdir Hnd Hrun.
  destruct (getRepositories_some _ _ Hrun) as (entries' & _ & _ & Hdir' & -> & _).
  rewrite Hdir in Hdir'. inversion Hdir'. subst entries'.
  rewrite map_map.
  rewrite (map_ext _ Dirent.name (repositoryOf_name fs _)).
  now apply NoDup_map_filter.
Qed.

Lemma connectionOf_In T d c :
  In c (connectionOf T d)
  <-> type c = T /\ keyValue "database=" d = Some (database c).
Proof.
  unfold connectionOf.
  destruct (keyValue "database=" d) as [ D | ].
  - cbn [In]. split.
    + intros [ <- | [] ]. now split.
    + intros (<- & H). inversion H. left. now destruct c.
  - split; [ contradiction | intros (_ & H); discriminate ].
Qed.

Lemma keyValue_name key e e' v :
  keyValue key e = Some v -> keyValue key e' = Some v ->
  Dirent.name e = Dirent.name e'.
Proof.
  intros H H'. apply keyValue_spec in H. apply keyValue_spec in H'.
  destruct H as (_ & -> & _). destruct H' as (_ & -> & _). reflexivity.
Qed.

Lemma connectionOf_NoDup T ds :
  NoDup (map Dirent.name ds) -> NoDup (flat_map (connectionOf T) ds).
Proof.
  induction ds as [ | d ds IH ]; cbn [map flat_map]; intros Hnd;
    [ constructor | ].
  apply NoDup_cons_iff in Hnd. destruct Hnd as [ Hd Hds ].
  apply NoDup_app; [ | now apply IH | ].
  - unfold connectionOf. destruct (keyValue "database=" d);
      repeat constructor. intros [].
  - intros c Hc Hc'. apply connectionOf_In in Hc. destruct Hc as [ _ HD ].
    apply in_flat_map in Hc'. destruct Hc' as (d' & Hin & Hc').
    apply connectionOf_In in Hc'. destruct Hc' as [ _ HD' ].
    apply Hd. rewrite (keyValue_name _ _ _ HD HD'). now apply in_map.
Qed.

Lemma connectionsUnder_In fs databasesPath e c :
  In c (connectionsUnder fs databasesPath e) ->
  keyValue "type=" e = Some (type c).
Proof.
  unfold connectionsUnder.
  destruct (keyValue "type=" e) as [ T | ]; [ | contradiction ].
  intros Hc. apply in_flat_map in Hc. destruct Hc as (d & _ & Hc).
  apply connectionOf_In in Hc. destruct Hc as [ <- _ ]. reflexivity.
Qed.

Lemma declaredConnections_NoDup fs databasesPath entries :
  NoDup (map Dirent.name entries) ->
  (forall e, In e entries ->
             NoDup (map Dirent.name
                        (listing fs (Path.join [databasesPath; Dirent.name e])))) ->
  NoDup (declaredConnections fs databasesPath entries).
Proof.
  unfold declaredConnections.
  induction entries as [ | e entries IH ]; cbn [map flat_map];
    intros Hnd Hinner; [ constructor | ].
  apply NoDup_cons_iff in Hnd. destruct Hnd as [ He Hrest ].
  apply NoDup_app.
  - unfold connectionsUnder.
    destruct (keyValue "type=" e); [ | constructor ].
    apply connectionOf_NoDup, Hinner. now left.
  - apply IH; [ exact Hrest | ]. intros e' Hin. apply Hinner. now right.
  - intros c Hc Hc'. apply connectionsUnder_In in Hc.
    apply in_flat_map in Hc'. destruct Hc' as (e' & Hin & Hc').
    apply connectionsUnder_In in Hc'.
    apply He. rewrite (keyValue_name _ _ _ Hc Hc'). now apply in_map.
Qed.

(** X8: when no listing names an entry twice, as directory listings do,
    getConnections returns no (type, database) pair twice: the values
    are read off the names without loss, so distinct directories give
    distinct connections. *)
Theorem X8_connections_distinct env fs entries cs :
  let databasesPath :=
    Path.join [asString (NAO_DEFAULT_PROJECT_PATH env); "databases"] in
  fs_readdirSync fs databasesPath = inr entries ->
  NoDup (map Dirent.name entries) ->
  (forall e, In e entries ->
             NoDup (map Dirent.name
                        (listing fs (Path.join [databasesPath; Dirent.name e])))) ->
  result (getConnections env) fs = Returned (Some cs) ->
  NoDup cs.
Proof.
  cbv zeta. intros Hdir Hnd Hinner Hrun.
  destruct (getConnections_some _ _ Hrun)
    as (entries' & _ & _ & Hdir' & _ & -> & _).
  rewrite Hdir in Hdir'. inversion Hdir'. subst entries'.
  now apply declaredConnections_NoDup.
Qed.

Ltac distinct_strings :=
  vm_compute;
  repeat (apply NoDup_cons; [ cbn [In]; intuition discriminate | ]);
  apply NoDup_nil.

Lemma X7_repository_names_distinct_witness :
  fs_readdirSync sampleFs "/srv/nao/repos"
  = inr [dir "shop"; file "README.md"; dir "warehouse"; dir "notes"]
  /\ NoDup ["shop"; "README.md"; "warehouse"; "notes"]
  /\ result (getRepositories sampleEnv) sampleFs = Returned (Some sampleRepositories)
  /\ NoDup ["shop"; "warehouse"; "notes"].
Proof.
  assert (Hnd : NoDup (map Dirent.name
                         [dir "shop"; file "README.md"; dir "warehouse";
                          dir "notes"]))
    by distinct_strings.
  assert (Hrun : result (getRepositories sampleEnv) sampleFs
                 = Returned (Some sampleRepositories))
    by (vm_compute; reflexivity).
  split; [ reflexivity | ]. split; [ exact Hnd | ]. split; [ exact Hrun | ].
  exact (@X7_repository_names_distinct sampleEnv sampleFs
           [dir "shop"; file "README.md"; dir "warehouse"; dir "notes"]
           sampleRepositories eq_refl Hnd Hrun).
Defined.

Lemma X8_connections_distinct_witness :
  fs_readdirSync sampleFs "/srv/nao/databases"
  = inr [dir "type=postgres"; dir "type="; file "type=csv"; dir "cache";
         dir "type=bigquery"]
  /\ result (getConnections sampleEnv) sampleFs = Returned (Some sampleConnections)
  /\ NoDup sampleConnections.
Proof.
  assert (Hnd : NoDup (map Dirent.name
                         [dir "type=postgres"; dir "type="; file "type=csv";
                          dir "cache"; dir "type=bigquery"]))
    by distinct_strings.
  assert (Hinner :
            forall e,
              In e [dir "type=postgres"; dir "type="; file "type=csv";
                    dir "cache"; dir "type=bigquery"] ->
              NoDup (map Dirent.name
                       (listing sampleFs
                          (Path.join
                             [Path.join
                                [asString (NAO_DEFAULT_PROJECT_PATH sampleEnv);
                                 "databases"];
                              Dirent.name e])))).
  { intros e [ <- | [ <- | [ <- | [ <- | [ <- | [] ] ] ] ] ];
      distinct_strings. }
  assert (Hrun : result (getConnections sampleEnv) sampleFs
                 = Returned (Some sampleConnections))
    by (vm_compute; reflexivity).
  split; [ reflexivity | ]. split; [ exact Hrun | ].
  exact (@X8_connections_distinct sampleEnv sampleFs
           [dir "type=postgres"; dir "type="; file "type=csv"; dir "cache";
            dir "type=bigquery"]
           sampleConnections eq_refl Hnd Hinner Hrun).
Defined.

(** ** What a run depends on *)

Lemma forOf_same_body {A S} (body : A -> S -> Js S) fs fs' (xs : list A) :
  (forall x acc, body x acc fs = body x acc fs') ->
  forall acc, forOf xs body acc fs = forOf xs body acc fs'.
Proof.
  intros Hbody. induction xs as [ | x xs IH ]; intros acc; [ reflexivity | ].
  cbn [forOf]. unfold bind. rewrite Hbody.
  destruct (body x acc fs') as [ [ a | e ] t ]; [ | reflexivity ].
  now rewrite IH.
Qed.

Lemma bind_same {A B} (m : Js A) (k : A -> Js B) fs fs' :
  m fs = m fs' -> (forall a, k a fs = k a fs') ->
  bind m k fs = bind m k fs'.
Proof.
  intros Hm Hk. unfold bind. rewrite Hm.
  destruct (m fs') as [ [ a | e ] t ]; [ now rewrite Hk | reflexivity ].
Qed.

Lemma tryCatch_same {A} (body : Js A) handler fs fs' :
  body fs = body fs' -> (forall e, handler e fs = handler e fs') ->
  tryCatch body handler fs = tryCatch body handler fs'.
Proof.
  intros Hb Hh. unfold tryCatch. rewrite Hb.
  destruct (body fs') as [ [ a | e ] t ]; [ reflexivity | now rewrite Hh ].
Qed.

Lemma scanRepository_same fs fs' reposPath entry acc :
  (forall p, fs_existsSync fs p = fs_existsSync fs' p) ->
  scanRepository reposPath entry acc fs = scanRepository reposPath entry acc fs'.
Proof.
  intros Hsame. rewrite !scanRepository_run.
  unfold repositoryOf, probesOf, isProject. now rewrite !Hsame.
Qed.

Lemma scanType_same fs fs' databasesPath entry acc :
  (forall p, fs_readdirSync fs p = fs_readdirSync fs' p) ->
  scanType databasesPath entry acc fs = scanType databasesPath entry acc fs'.
Proof.
  intros Hsame. rewrite !scanType_run.
  unfold connectionsUnder, listing. now rewrite !Hsame.
Qed.

(** X9: each function looks at the file system only through what it
    needs.  getUserRules depends on the existence and the content of
    RULES.md alone; getRepositories on the existence oracle and the
    listing of repos/ alone (not on any file content or other listing:
    it does not descend into the repositories); getConnections on the
    existence of databases/ and on the directory listings alone.  Two
    file systems that agree there give the same result and the same
    calls. *)
Theorem X9_run_depends_on env fs fs' :
  let root := asString (NAO_DEFAULT_PROJECT_PATH env) in
  let rulesPath := Path.join [root; "RULES.md"] in
  let reposPath := Path.join [root; "repos"] in
  let databasesPath := Path.join [root; "databases"] in
  (fs_existsSync fs rulesPath = fs_existsSync fs' rulesPath ->
   fs_readFileSync fs rulesPath = fs_readFileSync fs' rulesPath ->
   getUserRules env fs = getUserRules env fs')
  /\ ((forall p, fs_existsSync fs p = fs_existsSync fs' p) ->
      fs_readdirSync fs reposPath = fs_readdirSync fs' reposPath ->
      getRepositories env fs = getRepositories env fs')
  /\ (fs_existsSync fs databasesPath = fs_existsSync fs' databasesPath ->
      (forall p, fs_readdirSync fs p = fs_readdirSync fs' p) ->
      getConnections env fs = getConnections env fs').
Proof.
  cbv zeta. split; [ | split ].
  - intros Hex Hread. rewrite !getUserRules_run. cbv zeta.
    now rewrite Hex, Hread.
  - intros Hex Hdir. unfold getRepositories.
    destruct (falsy (NAO_DEFAULT_PROJECT_PATH env)); [ reflexivity | ].
    cbv zeta. apply bind_same; [ unfold existsSync; now rewrite Hex | ].
    intros present. destruct (negb present); [ reflexivity | ].
    apply tryCatch_same; [ | reflexivity ].
    apply bind_same; [ unfold readdirSync; now rewrite Hdir | ].
    intros entries. apply bind_same; [ | reflexivity ].
    apply forOf_same_body. intros x acc. now apply scanRepository_same.
  - intros Hex Hdir. unfold getConnections.
    destruct (falsy (NAO_DEFAULT_PROJECT_PATH env)); [ reflexivity | ].
    cbv zeta. apply bind_same; [ unfold existsSync; now rewrite Hex | ].
    intros present. destruct (negb present); [ reflexivity | ].
    apply tryCatch_same; [ | reflexivity ].
    apply bind_same; [ unfold readdirSync; now rewrite Hdir | ].
    intros entries. apply bind_same; [ | reflexivity ].
    apply forOf_same_body. intros x acc. now apply scanType_same.
Qed.

Lemma X9_run_depends_on_witness :
  (forall p, fs_existsSync sampleFs p = fs_existsSync reposOnlyFs p)
  /\ fs_readdirSync sampleFs "/srv/nao/repos"
     = fs_readdirSync reposOnlyFs "/srv/nao/repos"
  /\ getRepositories sampleEnv sampleFs = getRepositories sampleEnv reposOnlyFs.
Proof.
  split; [ reflexivity | ]. split; [ reflexivity | ].
  apply (proj1 (proj2 (X9_run_depends_on sampleEnv sampleFs reposOnlyFs)));
    reflexivity.
Defined.

(** ** How much a scan of [repos/] costs *)

Lemma probesOf_only_existsSync fs reposPath dirs :
  filter isExistsSync (flat_map (probesOf fs reposPath) dirs)
  = flat_map (probesOf fs reposPath) dirs
  /\ filter isReaddirSync (flat_map (probesOf fs reposPath) dirs) = [].
Proof.
  induction dirs as [ | d dirs [ IH1 IH2 ] ]; [ now split | ].
  cbn [flat_map]. rewrite !filter_app, IH1, IH2.
  unfold probesOf.
  destruct (fs_existsSync fs (rootManifest _ _)), (isProject fs _ _);
    now split.
Qed.

Lemma probesOf_length fs reposPath d :
  2 <= List.length (probesOf fs reposPath d) <= 3.
Proof.
  unfold probesOf, isProject.
  destruct (fs_existsSync fs (rootManifest _ _)),
           (fs_existsSync fs (nestedManifest _ _));
    cbn [orb app List.length]; lia.
Qed.

Lemma probesOf_cost fs reposPath dirs :
  2 * List.length dirs
  <= List.length (flat_map (probesOf fs reposPath) dirs)
  <= 3 * List.length dirs.
Proof.
  induction dirs as [ | d dirs IH ]; [ cbn; lia | ].
  cbn [flat_map]. rewrite length_app. cbn [List.length].
  pose proof (probesOf_length fs reposPath d). lia.
Qed.

Lemma probesOf_paths fs root d c :
  root <> "" ->
  In c (probesOf fs (Path.join [root; "repos"]) d) ->
  c = ExistsSync (rootManifest (Path.join [root; "repos"]) (Dirent.name d))
  \/ c = ExistsSync (nestedManifest (Path.join [root; "repos"]) (Dirent.name d))
  \/ c = ExistsSync (indexArtifact root (Dirent.name d)).
Proof.
  intros Hroot. rewrite probesOf_expected by exact Hroot.
  unfold expectedProbes.
  destruct (fs_existsSync fs (rootManifest _ _)), (isProject fs _ _);
    cbn [app In]; intuition.
Qed.

Lemma probesOf_groups fs root dirs :
  root <> "" ->
  Forall2
    (fun e group =>
       2 <= List.length group <= 3
       /\ forall c,
            In c group ->
            c = ExistsSync (rootManifest (Path.join [root; "repos"]) (Dirent.name e))
            \/ c = ExistsSync (nestedManifest (Path.join [root; "repos"]) (Dirent.name e))
            \/ c = ExistsSync (indexArtifact root (Dirent.name e)))
    dirs (map (probesOf fs (Path.join [root; "repos"])) dirs).
Proof.
  intros Hroot. induction dirs as [ | d dirs IH ]; cbn [map]; constructor;
    [ | exact IH ].
  split; [ apply probesOf_length | ].
  intros c. now apply probesOf_paths.
Qed.

(** X10: a scan of an enumerable repos/ enumerates repos/ itself and
    nothing else (one readdirSync: it never descends into a repository).
    After the two calls on repos/ the calls fall into one group per
    directory entry, in listing order, each group being two or three
    existence tests on paths of that entry (its two manifests and its
    index artifact); entries that are not directories have no group, so
    nothing is tested for them. *)
Theorem X10_repositories_cost env fs entries :
  let root := NAO_DEFAULT_PROJECT_PATH env in
  let reposPath := Path.join [asString root; "repos"] in
  let n := List.length (filter Dirent.isDirectory entries) in
  falsy root = false ->
  fs_existsSync fs reposPath = true ->
  fs_readdirSync fs reposPath = inr entries ->
  (exists groups,
      calls (getRepositories env) fs
      = ExistsSync reposPath :: ReaddirSync reposPath 
         :: List.concat groups
      /\ Forall2
           (fun e group =>
              2 <= List.length group <= 3
              /\ forall c,
                   In c group ->
                   c = ExistsSync (rootManifest reposPath (Dirent.name e))
                   \/ c = ExistsSync (nestedManifest reposPath (Dirent.name e))
                   \/ c = ExistsSync (indexArtifact (asString root)
                                                    (Dirent.name e)))
           (filter Dirent.isDirectory entries) groups)
  /\ filter isReaddirSync (calls (getRepositories env) fs) = [ReaddirSync reposPath]
  /\ 1 + 2 * n
     <= List.length (filter isExistsSync (calls (getRepositories env) fs))
     <= 1 + 3 * n
  /\ List.length (calls (getRepositories env) fs)
     = 1 + List.length (filter isExistsSync (calls (getRepositories env) fs)).
Proof.
  cbv zeta. intros Hroot Hexists Hdir.
  pose proof (falsy_false_not_empty _ Hroot) as Hne.
  unfold calls. rewrite getRepositories_run. cbv zeta.
  rewrite Hroot, Hexists, Hdir. cbn [snd filter isReaddirSync isExistsSync].
  pose proof (probesOf_cost fs
                (Path.join [asString (NAO_DEFAULT_PROJECT_PATH env); "repos"])
                (filter Dirent.isDirectory entries)) as Hcost.
  pose proof (probesOf_only_existsSync fs
                (Path.join [asString (NAO_DEFAULT_PROJECT_PATH env); "repos"])
                (filter Dirent.isDirectory entries)) as Hexact.
  split.
  - exists (map (probesOf fs (Path.join [asString (NAO_DEFAULT_PROJECT_PATH env); "repos"]))
                (filter Dirent.isDirectory entries)).
    split; [ now rewrite flat_map_concat_map | ].
    now apply probesOf_groups.
  - rewrite (proj2 Hexact), (proj1 Hexact). cbn [List.length].
    split; [ reflexivity | ]. split; lia.
Qed.

Lemma X10_repositories_cost_witness :
  falsy (NAO_DEFAULT_PROJECT_PATH sampleEnv) = false
  /\ fs_existsSync sampleFs "/srv/nao/repos" = true
  /\ fs_readdirSync sampleFs "/srv/nao/repos"
     = inr [dir "shop"; file "README.md"; dir "warehouse"; dir "notes"]
  /\ exists groups,
       calls (getRepositories sampleEnv) sampleFs
       = ExistsSync "/srv/nao/repos" :: ReaddirSync "/srv/nao/repos"
         
         :: List.concat groups
       /\ Forall2
            (fun e group =>
               2 <= List.length group <= 3
               /\ forall c,
                    In c group ->
                    c = ExistsSync (rootManifest "/srv/nao/repos" (Dirent.name e))
                    \/ c = ExistsSync (nestedManifest "/srv/nao/repos" (Dirent.name e))
                    \/ c = ExistsSync (indexArtifact "/srv/nao" (Dirent.name e)))
            [dir "shop"; dir "warehouse"; dir "notes"] groups.
Proof.
  split; [ reflexivity | ]. split; [ reflexivity | ]. split; [ reflexivity | ].
  exact (proj1 (@X10_repositories_cost sampleEnv sampleFs
                  [dir "shop"; file "README.md"; dir "warehouse"; dir "notes"]
                  eq_refl eq_refl eq_refl)).
Defined.

(** X11: when null comes back.  getUserRules returns null exactly when
    the root is unset or empty, RULES.md is missing, or reading it
    throws; getRepositories exactly when the root is unset or empty,
    repos/ is missing, its enumeration throws, or it lists no directory;
    getConnections exactly when the root is unset or empty, databases/
    is missing, an enumeration throws, or no connection is declared. *)
Theorem X11_null_exactly_when env fs :
  let root := NAO_DEFAULT_PROJECT_PATH env in
  let rulesPath := Path.join [asString root; "RULES.md"] in
  let reposPath := Path.join [asString root; "repos"] in
  let databasesPath := Path.join [asString root; "databases"] in
  (result (getUserRules env) fs = Returned None
   <-> falsy root = true
       \/ fs_existsSync fs rulesPath = false
       \/ exists e, fs_readFileSync fs rulesPath = inl e)
  /\ (result (getRepositories env) fs = Returned None
      <-> falsy root = true
          \/ fs_existsSync fs reposPath = false
          \/ (exists e, fs_readdirSync fs reposPath = inl e)
          \/ exists entries,
               fs_readdirSync fs reposPath = inr entries
               /\ filter Dirent.isDirectory entries = [])
  /\ (result (getConnections env) fs = Returned None
      <-> falsy root = true
          \/ fs_existsSync fs databasesPath = false
          \/ (exists e, fs_readdirSync fs databasesPath = inl e)
          \/ exists entries,
               fs_readdirSync fs databasesPath = inr entries
               /\ (allReadable fs databasesPath entries = false
                   \/ declaredConnections fs databasesPath entries = [])).
Proof.
  cbv zeta. split; [ | split ].
  - unfold result. rewrite getUserRules_run. cbv zeta.
    destruct (falsy _); [ split; [ now left | reflexivity ] | ].
    destruct (fs_existsSync fs _); [ | split; [ now right; left | reflexivity ] ].
    destruct (fs_readFileSync fs _) as [ e | text ].
    + split; [ right; right; now exists e | reflexivity ].
    + split; [ discriminate | ].
      intros [ H | [ H | (e & H) ] ]; discriminate.
  - unfold result. rewrite getRepositories_run. cbv zeta.
    destruct (falsy _); [ split; [ now left | reflexivity ] | ].
    destruct (fs_existsSync fs _); [ | split; [ now right; left | reflexivity ] ].
    destruct (fs_readdirSync fs _) as [ e | entries ].
    + split; [ right; right; left; now exists e | reflexivity ].
    + cbn [fst].
      destruct (filter Dirent.isDirectory entries) as [ | d dirs ] eqn:Hdirs.
      * split; [ | reflexivity ].
        intros _. right; right; right. exists entries. now split.
      * split; [ discriminate | ].
        intros [ H | [ H | [ (e & H) | (entries' & H & Hnone) ] ] ];
          try discriminate.
        inversion H. subst entries'. rewrite Hdirs in Hnone. discriminate.
  - rewrite getConnections_run. cbv zeta.
    destruct (falsy _); [ split; [ now left | reflexivity ] | ].
    destruct (fs_existsSync fs _); [ | split; [ now right; left | reflexivity ] ].
    destruct (fs_readdirSync fs _) as [ e | entries ].
    + split; [ right; right; left; now exists e | reflexivity ].
    + destruct (allReadable fs _ entries) eqn:Hall.
      * destruct (declaredConnections fs _ entries) as [ | c cs ] eqn:Hdecl.
        -- split; [ | reflexivity ].
           intros _. right; right; right. exists entries.
           split; [ reflexivity | now right ].
        -- split; [ discriminate | ].
           intros [ H | [ H | [ (e & H) | (entries' & H & [ Hf | Hnone ]) ] ] ];
             try discriminate; inversion H; subst entries'; congruence.
      * split; [ | reflexivity ].
        intros _. right; right; right. exists entries.
        split; [ reflexivity | now left ].
Qed.

Lemma X11_null_exactly_when_witness :
  (exists entries,
      fs_readdirSync bareFs "/srv/nao/repos" = inr entries
      /\ filter Dirent.isDirectory entries = [])
  /\ result (getRepositories sampleEnv) bareFs = Returned None.
Proof.
  assert (Hempty :
            exists entries,
              fs_readdirSync bareFs "/srv/nao/repos" = inr entries
              /\ filter Dirent.isDirectory entries = []).
  { exists []. split; reflexivity. }
  split; [ exact Hempty | ].
  apply (proj2 (proj1 (proj2 (X11_null_exactly_when sampleEnv bareFs)))).
  right; right; right. exact Hempty.
Defined.
